(** * Tomato Clock: the background timer service

    A shallow embedding of [TomatoClockService] (the extension's service
    worker) and the properties of its phase state machine, its recovery at
    start-up and its bounded history log.

    Conventions of the embedding.
    - JavaScript numbers that the service computes with (seconds, minutes,
      epoch milliseconds, the cycle counter) are integers, modelled in [Z];
      [Math.floor (x / 1000)] is [Z.div] and [%] is [Z.rem].
    - [timerState.currentPhase] stays a string, compared with [===] as in
      the source, so the [else] and [default] branches keep their meaning.
    - [null] is [None]; a JavaScript truthiness test is written out
      ([truthy_number], [or_default]).
    - Each [async] method is one atomic step: the host delivers one event at
      a time and the model lets every [await] finish before the next event.
    - The host (the alarm, the two storage areas, outgoing notifications and
      messages) is part of the state, so that every call the service makes
      on it is visible.  A storage area either serves the calls of one
      operation or rejects them ([syncFails], [localFails]); the service
      catches the rejection, as in the source.  One operation reads the
      clock once ([now]).
    - Not modelled: console output, the five-second timer that clears the
      notification, and the contents of the badge (an icon update is
      recorded with the timer state it shows). *)

From Stdlib Require Import ZArith List String Bool Lia.
Import ListNotations.

Local Open Scope Z_scope.

(** ** Data model *)

Record TimerState : Type := mkTimerState {
  isRunning : bool;
  currentPhase : string;      (* 'work', 'short-break', 'long-break' *)
  currentCycle : Z;
  timeRemaining : Z;          (* seconds *)
  endTime : option Z          (* epoch milliseconds, or null *)
}.

Record Settings : Type := mkSettings {
  workDuration : Z;           (* minutes *)
  shortBreakDuration : Z;
  longBreakDuration : Z
}.

(** The [settings] object carried by a message: any subset of the keys. *)
Record SettingsPatch : Type := mkSettingsPatch {
  patch_workDuration : option Z;
  patch_shortBreakDuration : option Z;
  patch_longBreakDuration : option Z
}.

(** One entry of the history log, as built by [recordCompletedPomodoro]. *)
Record PomodoroRecord : Type := mkPomodoroRecord {
  id : Z;
  date : string;              (* YYYY-MM-DD *)
  startTime : string;         (* HH:MM *)
  duration : Z;
  type : string
}.

(** What the service sends out: notifications, the sound request, the
    badge update and the state broadcast.  They are fire-and-forget. *)
Inductive Effect : Type :=
| NotificationCreate (currentPhaseName : option string) (nextPhaseName : string)
| PlaySound
| TimerUpdate (data : TimerState)
| IconUpdate (shown : TimerState).

(** The service object together with the host state it acts on. *)
Record Service : Type := mkService {
  timerState : TimerState;
  settings : Settings;
  currentTaskType : string;
  sessionStartTime : option Z;              (* a Date, or null *)
  alarm : option Z;                         (* 'tomato-timer': armed delay, seconds *)
  stored_timerState : option TimerState;    (* chrome.storage.local, key timerState *)
  stored_timerSettings : option Settings;   (* chrome.storage.sync, key timerSettings *)
  sync_history : option (list PomodoroRecord);   (* chrome.storage.sync, key history *)
  local_history : option (list PomodoroRecord);  (* chrome.storage.local, key history *)
  effects : list Effect                     (* oldest first *)
}.

(** What one operation observes of the outside world: the clock, and
    whether the calls on each storage area reject. *)
Record Env : Type := mkEnv {
  now : Z;
  syncFails : bool;
  localFails : bool
}.

(** ** Field updates *)

Definition with_isRunning (b : bool) (t : TimerState) : TimerState :=
  mkTimerState b (currentPhase t) (currentCycle t) (timeRemaining t) (endTime t).
Definition with_currentPhase (p : string) (t : TimerState) : TimerState :=
  mkTimerState (isRunning t) p (currentCycle t) (timeRemaining t) (endTime t).
Definition with_currentCycle (c : Z) (t : TimerState) : TimerState :=
  mkTimerState (isRunning t) (currentPhase t) c (timeRemaining t) (endTime t).
Definition with_timeRemaining (r : Z) (t : TimerState) : TimerState :=
  mkTimerState (isRunning t) (currentPhase t) (currentCycle t) r (endTime t).
Definition with_endTime (e : option Z) (t : TimerState) : TimerState :=
  mkTimerState (isRunning t) (currentPhase t) (currentCycle t) (timeRemaining t) e.

Definition set_timerState (t : TimerState) (w : Service) : Service :=
  mkService t (settings w) (currentTaskType w) (sessionStartTime w) (alarm w)
    (stored_timerState w) (stored_timerSettings w) (sync_history w)
    (local_history w) (effects w).
Definition set_settings (s : Settings) (w : Service) : Service :=
  mkService (timerState w) s (currentTaskType w) (sessionStartTime w) (alarm w)
    (stored_timerState w) (stored_timerSettings w) (sync_history w)
    (local_history w) (effects w).
Definition set_currentTaskType (c : string) (w : Service) : Service :=
  mkService (timerState w) (settings w) c (sessionStartTime w) (alarm w)
    (stored_timerState w) (stored_timerSettings w) (sync_history w)
    (local_history w) (effects w).
Definition set_sessionStartTime (m : option Z) (w : Service) : Service :=
  mkService (timerState w) (settings w) (currentTaskType w) m (alarm w)
    (stored_timerState w) (stored_timerSettings w) (sync_history w)
    (local_history w) (effects w).
Definition set_alarm (a : option Z) (w : Service) : Service :=
  mkService (timerState w) (settings w) (currentTaskType w) (sessionStartTime w) a
    (stored_timerState w) (stored_timerSettings w) (sync_history w)
    (local_history w) (effects w).
Definition set_stored_timerState (t : option TimerState) (w : Service) : Service :=
  mkService (timerState w) (settings w) (currentTaskType w) (sessionStartTime w)
    (alarm w) t (stored_timerSettings w) (sync_history w)
    (local_history w) (effects w).
Definition set_stored_timerSettings (s : option Settings) (w : Service) : Service :=
  mkService (timerState w) (settings w) (currentTaskType w) (sessionStartTime w)
    (alarm w) (stored_timerState w) s (sync_history w)
    (local_history w) (effects w).
Definition set_sync_history (h : option (list PomodoroRecord)) (w : Service) : Service :=
  mkService (timerState w) (settings w) (currentTaskType w) (sessionStartTime w)
    (alarm w) (stored_timerState w) (stored_timerSettings w) h
    (local_history w) (effects w).
Definition set_local_history (h : option (list PomodoroRecord)) (w : Service) : Service :=
  mkService (timerState w) (settings w) (currentTaskType w) (sessionStartTime w)
    (alarm w) (stored_timerState w) (stored_timerSettings w) (sync_history w)
    h (effects w).
Definition emit (e : Effect) (w : Service) : Service :=
  mkService (timerState w) (settings w) (currentTaskType w) (sessionStartTime w)
    (alarm w) (stored_timerState w) (stored_timerSettings w) (sync_history w)
    (local_history w) (effects w ++ [e]).

(** [this.timerState.f = v] *)
Definition upd (f : TimerState -> TimerState) (w : Service) : Service :=
  set_timerState (f (timerState w)) w.

(** ** JavaScript idioms *)

(** Truthiness of a number-or-null: [null] and [0] are falsy. *)
Definition truthy_number (e : option Z) : bool :=
  match e with
  | Some t => negb (t =? 0)
  | None => false
  end.

(** [s || d] on strings: the empty string is falsy. *)
Definition or_default (s d : string) : string :=
  if (s =? "")%string then d else s.

(** [{ ...s, ...p }] *)
Definition merge_settings (s : Settings) (p : SettingsPatch) : Settings :=
  mkSettings
    (match patch_workDuration p with Some v => v | None => workDuration s end)
    (match patch_shortBreakDuration p with Some v => v | None => shortBreakDuration s end)
    (match patch_longBreakDuration p with Some v => v | None => longBreakDuration s end).

(** [history.slice(-n)]: the last [n] elements, all of them when there are
    fewer. *)
Definition slice_last {A : Type} (n : nat) (l : list A) : list A :=
  skipn (List.length l - n)%nat l.

(** [Math.max(0, Math.floor((endTime - now) / 1000))] *)
Definition timeLeft (endT nowT : Z) : Z :=
  Z.max 0 ((endT - nowT) / 1000).

Definition defaultTaskType : string := "工作".

Definition default_timerState : TimerState :=
  mkTimerState false "work" 1 (25 * 60) None.

Definition default_settings : Settings := mkSettings 25 5 15.

(** ** The host's rendering of dates

    The two renderings of a [Date] that a history record keeps are the
    host's: [d.toISOString().split('T')[0]] (the UTC calendar day) and
    [d.toTimeString().slice(0, 5)] (HH:MM in the local time zone).  They
    are an interface of the service, functions of the instant in epoch
    milliseconds. *)
Class HostClock : Type := {
  isoDay : Z -> string;
  clockHHMM : Z -> string
}.

(** A host in the UTC time zone, so that the examples run: the calendar
    day by the usual days-to-civil conversion, and the time of day. *)

Definition digit (n : Z) : Ascii.ascii := Ascii.ascii_of_nat (48 + Z.to_nat n).

Definition digits2 (n : Z) : string :=
  String (digit (n / 10 mod 10)) (String (digit (n mod 10)) EmptyString).

Definition digits4 (n : Z) : string :=
  (digits2 (n / 100) ++ digits2 n)%string.

Definition utc_isoDay (ms : Z) : string :=
  let z := ms / 86400000 + 719468 in
  let era := z / 146097 in
  let doe := z - era * 146097 in
  let yoe := (doe - doe / 1460 + doe / 36524 - doe / 146096) / 365 in
  let doy := doe - (365 * yoe + yoe / 4 - yoe / 100) in
  let mp := (5 * doy + 2) / 153 in
  let d := doy - (153 * mp + 2) / 5 + 1 in
  let m := if mp <? 10 then mp + 3 else mp - 9 in
  let y := yoe + era * 400 + (if m <=? 2 then 1 else 0) in
  (digits4 y ++ "-" ++ digits2 m ++ "-" ++ digits2 d)%string.

Definition utc_clockHHMM (ms : Z) : string :=
  (digits2 (ms / 3600000 mod 24) ++ ":" ++ digits2 (ms / 60000 mod 60))%string.

Definition utc_host : HostClock :=
  {| isoDay := utc_isoDay; clockHHMM := utc_clockHHMM |}.

(** 2023-11-14 22:13:20 UTC, every storage call succeeding. *)
Definition env0 : Env := mkEnv 1700000000000 false false.

(** ** The service *)

Section Service.

Context {clock : HostClock}.

(** *** Storage *)

Definition loadState (env : Env) (w : Service) : Service :=
  if localFails env then w
  else match stored_timerState w with
       | Some t => set_timerState t w
       | None => w
       end.

Definition saveState (env : Env) (w : Service) : Service :=
  if localFails env then w
  else set_stored_timerState (Some (timerState w)) w.

Definition loadSettings (env : Env) (w : Service) : Service :=
  if syncFails env then w
  else match stored_timerSettings w with
       | Some s => set_settings s w
       | None => w
       end.

Definition saveSettings (env : Env) (w : Service) : Service :=
  if syncFails env then w
  else set_stored_timerSettings (Some (settings w)) w.

(** *** Outgoing calls *)

Definition startAlarm (seconds : Z) (w : Service) : Service :=
  let w := set_alarm None w in
  set_alarm (Some seconds) w.

Definition clearAlarm (w : Service) : Service := set_alarm None w.

Definition phaseNames (p : string) : option string :=
  if (p =? "work")%string then Some "工作时间"%string
  else if (p =? "short-break")%string then Some "短休息"%string
  else if (p =? "long-break")%string then Some "长休息"%string
  else None.

Definition getNextPhaseName (w : Service) : string :=
  if (currentPhase (timerState w) =? "work")%string then
    if Z.rem (currentCycle (timerState w)) 4 =? 0 then "长休息"%string
    else "短休息"%string
  else "工作时间"%string.

Definition showNotification (w : Service) : Service :=
  emit (NotificationCreate (phaseNames (currentPhase (timerState w)))
                           (getNextPhaseName w)) w.

Definition playNotificationSound (w : Service) : Service := emit PlaySound w.

Definition broadcastUpdate (w : Service) : Service :=
  emit (TimerUpdate (timerState w)) w.

Definition updateIcon (w : Service) : Service :=
  emit (IconUpdate (timerState w)) w.

(** *** Phase state machine *)

Definition getCurrentPhaseDuration (w : Service) : Z :=
  let p := currentPhase (timerState w) in
  if (p =? "work")%string then workDuration (settings w) * 60
  else if (p =? "short-break")%string then shortBreakDuration (settings w) * 60
  else if (p =? "long-break")%string then longBreakDuration (settings w) * 60
  else workDuration (settings w) * 60.

Definition moveToNextPhase (w : Service) : Service :=
  if (currentPhase (timerState w) =? "work")%string then
    if Z.rem (currentCycle (timerState w)) 4 =? 0 then
      let w := upd (with_currentPhase "long-break") w in
      upd (with_timeRemaining (longBreakDuration (settings w) * 60)) w
    else
      let w := upd (with_currentPhase "short-break") w in
      upd (with_timeRemaining (shortBreakDuration (settings w) * 60)) w
  else
    let w := upd (with_currentPhase "work") w in
    let w := upd (with_timeRemaining (workDuration (settings w) * 60)) w in
    if (currentPhase (timerState w) =? "work")%string then
      upd (with_currentCycle (currentCycle (timerState w) + 1)) w
    else w.

(** *** History *)

Definition history_of (h : option (list PomodoroRecord)) : list PomodoroRecord :=
  match h with
  | Some l => l
  | None => []
  end.

(** The record built by [recordCompletedPomodoro], once the start marker
    has been defaulted. *)
Definition buildRecord (env : Env) (w : Service) (started : Z) : PomodoroRecord :=
  mkPomodoroRecord
    (now env)
    (isoDay (now env))
    (clockHHMM started)
    (workDuration (settings w))
    (or_default (currentTaskType w) defaultTaskType).

(** [history.push(record); history.slice(-1000)] *)
Definition pushLimited (h : option (list PomodoroRecord)) (r : PomodoroRecord)
  : list PomodoroRecord :=
  slice_last 1000 (history_of h ++ [r]).

Definition recordCompletedPomodoro (env : Env) (w : Service) : Service :=
  (* if (!this.sessionStartTime) this.sessionStartTime = new Date(...): the
     field is read once below and cleared at the end *)
  let started :=
    match sessionStartTime w with
    | Some t => t
    | None => now env - workDuration (settings w) * 60 * 1000
    end in
  let record := buildRecord env w started in
  let w :=
    if negb (syncFails env) then
      set_sync_history (Some (pushLimited (sync_history w) record)) w
    else if negb (localFails env) then
      set_local_history (Some (pushLimited (local_history w) record)) w
    else w in
  set_sessionStartTime None w.

Definition getHistory (env : Env) (w : Service) : list PomodoroRecord :=
  if syncFails env then []
  else
    match sync_history w with
    | Some (r :: l) => r :: l
    | _ => if localFails env then [] else history_of (local_history w)
    end.

Definition clearHistory (env : Env) (w : Service) : Service :=
  if syncFails env then w
  else
    let w := set_sync_history None w in
    if localFails env then w else set_local_history None w.

(** *** Timer operations *)

Definition onTimerComplete (env : Env) (w : Service) : Service :=
  let w := upd (with_isRunning false) w in
  let w := upd (with_endTime None) w in
  let w :=
    if (currentPhase (timerState w) =? "work")%string
    then recordCompletedPomodoro env w
    else w in
  let w := showNotification w in
  let w := playNotificationSound w in
  let w := moveToNextPhase w in
  let w := saveState env w in
  let w := updateIcon w in
  broadcastUpdate w.

Definition startTimer (env : Env) (w : Service) : Service :=
  let w :=
    if timeRemaining (timerState w) <=? 0
    then upd (with_timeRemaining (getCurrentPhaseDuration w)) w
    else w in
  let w := upd (with_isRunning true) w in
  let w := upd (with_endTime
                  (Some (now env + timeRemaining (timerState w) * 1000))) w in
  let w :=
    if (currentPhase (timerState w) =? "work")%string
    then set_sessionStartTime (Some (now env)) w
    else w in
  let w := startAlarm (timeRemaining (timerState w)) w in
  let w := saveState env w in
  let w := updateIcon w in
  broadcastUpdate w.

Definition pauseTimer (env : Env) (w : Service) : Service :=
  let w := upd (with_isRunning false) w in
  let w := upd (with_endTime None) w in
  let w := clearAlarm w in
  let w := saveState env w in
  let w := updateIcon w in
  broadcastUpdate w.

Definition skipPhase (env : Env) (w : Service) : Service :=
  let w := clearAlarm w in
  onTimerComplete env w.

Definition resetTimer (env : Env) (w : Service) : Service :=
  let w := upd (with_isRunning false) w in
  let w := upd (with_currentPhase "work") w in
  let w := upd (with_currentCycle 1) w in
  let w := upd (with_timeRemaining (workDuration (settings w) * 60)) w in
  let w := upd (with_endTime None) w in
  let w := clearAlarm w in
  let w := saveState env w in
  let w := updateIcon w in
  broadcastUpdate w.

(** The one-second poll. *)
Definition updateTimeRemaining (env : Env) (w : Service) : Service :=
  if isRunning (timerState w) && truthy_number (endTime (timerState w)) then
    match endTime (timerState w) with
    | Some e =>
        let left := timeLeft e (now env) in
        if negb (left =? timeRemaining (timerState w)) then
          let w := upd (with_timeRemaining left) w in
          let w := updateIcon w in
          let w := broadcastUpdate w in
          if left <=? 0 then onTimerComplete env w else w
        else w
    | None => w
    end
  else w.

(** *** Start-up *)

(** "Restore timer if it was running", the block of [init] that follows
    the loading of state and settings. *)
Definition restoreTimer (env : Env) (w : Service) : Service :=
  if isRunning (timerState w) && truthy_number (endTime (timerState w)) then
    match endTime (timerState w) with
    | Some e =>
        let left := timeLeft e (now env) in
        if 0 <? left then
          let w := upd (with_timeRemaining left) w in
          startAlarm left w
        else onTimerComplete env w
    | None => w
    end
  else w.

Definition init (env : Env) (w : Service) : Service :=
  let w := loadState env w in
  let w := loadSettings env w in
  let w := restoreTimer env w in
  updateIcon w.

(** [new TomatoClockService()] on a given host: the fields get their
    defaults, the host keeps what it has. *)
Definition construct (host : Service) : Service :=
  mkService default_timerState default_settings defaultTaskType None
    (alarm host) (stored_timerState host) (stored_timerSettings host)
    (sync_history host) (local_history host) (effects host).

Definition startService (env : Env) (host : Service) : Service :=
  init env (construct host).

(** A host with nothing armed and nothing stored: first installation. *)
Definition fresh_host : Service :=
  mkService default_timerState default_settings defaultTaskType None
    None None None None None [].

(** *** Commands *)

(** A missing [settings] field is the patch with no key; a missing
    [taskType] is the empty string (both are falsy or spread to nothing). *)
Inductive Message : Type :=
| GET_TIMER_STATE
| START_TIMER (settings : SettingsPatch)
| PAUSE_TIMER
| SKIP_PHASE
| RESET_TIMER
| UPDATE_SETTINGS (settings : SettingsPatch)
| GET_HISTORY
| EXPORT_HISTORY
| CLEAR_HISTORY
| SET_TASK_TYPE (taskType : string)
| OTHER_MESSAGE (type : string).

Inductive Response : Type :=
| ResponseState (t : TimerState)
| ResponseSuccess
| ResponseHistory (history : list PomodoroRecord)
| ResponseData (data : list PomodoroRecord)
| ResponseError (error : string).

Definition handleMessage (env : Env) (message : Message) (w : Service)
  : Service * Response :=
  match message with
  | GET_TIMER_STATE => (w, ResponseState (timerState w))
  | START_TIMER p =>
      let w := set_settings (merge_settings (settings w) p) w in
      (startTimer env w, ResponseSuccess)
  | PAUSE_TIMER => (pauseTimer env w, ResponseSuccess)
  | SKIP_PHASE => (skipPhase env w, ResponseSuccess)
  | RESET_TIMER => (resetTimer env w, ResponseSuccess)
  | UPDATE_SETTINGS p =>
      let w := set_settings (merge_settings (settings w) p) w in
      (saveSettings env w, ResponseSuccess)
  | GET_HISTORY => (w, ResponseHistory (getHistory env w))
  | EXPORT_HISTORY => (w, ResponseData (getHistory env w))
  | CLEAR_HISTORY => (clearHistory env w, ResponseSuccess)
  | SET_TASK_TYPE t =>
      (set_currentTaskType (or_default t defaultTaskType) w, ResponseSuccess)
  | OTHER_MESSAGE _ => (w, ResponseError "Unknown message type")
  end.

(** *** Runs of the service *)

(** Everything that makes the service act: a command, the alarm going off
    (the host drops a one-shot alarm when it fires), the one-second poll,
    and the host unloading the worker and starting it again. *)
Inductive Event : Type :=
| Command (m : Message)
| AlarmFired
| Tick
| WorkerRestart.

Definition step (env : Env) (ev : Event) (w : Service) : Service :=
  match ev with
  | Command m => fst (handleMessage env m w)
  | AlarmFired => onTimerComplete env (set_alarm None w)
  | Tick => updateTimeRemaining env w
  | WorkerRestart => startService env w
  end.

Inductive reachable : Service -> Prop :=
| reachable_start (env : Env) : reachable (startService env fresh_host)
| reachable_step (env : Env) (ev : Event) (w : Service) :
    reachable w -> reachable (step env ev w).

(** The state after a run of completions, one environment per completion,
    and the timer states it goes through. *)
Fixpoint completions (envs : list Env) (w : Service) : list TimerState :=
  match envs with
  | [] => []
  | env :: rest =>
      let w := onTimerComplete env w in
      timerState w :: completions rest w
  end.

(** How many completion notifications have gone out: [onTimerComplete]
    is the only sender. *)
Definition is_notification (e : Effect) : bool :=
  match e with
  | NotificationCreate _ _ => true
  | _ => false
  end.

Definition completed (w : Service) : nat :=
  List.length (filter is_notification (effects w)).

(** ** Closed forms *)

(** The timer state after a completion as a function of the settings and
    the timer state before: the closed form of [onTimerComplete] on the
    timer state. *)
Definition stateAfterCompletion (s : Settings) (t : TimerState) : TimerState :=
  if (currentPhase t =? "work")%string then
    if Z.rem (currentCycle t) 4 =? 0
    then mkTimerState false "long-break" (currentCycle t)
           (longBreakDuration s * 60) None
    else mkTimerState false "short-break" (currentCycle t)
           (shortBreakDuration s * 60) None
  else mkTimerState false "work" (currentCycle t + 1) (workDuration s * 60) None.

Fixpoint statesAfterCompletions (n : nat) (s : Settings) (t : TimerState)
  : list TimerState :=
  match n with
  | O => []
  | S n' =>
      let t' := stateAfterCompletion s t in
      t' :: statesAfterCompletions n' s t'
  end.

(** The record that a completion of a work phase builds in state [w]: the
    start marker if there is one, otherwise [now] minus the work duration. *)
Definition recordOf (env : Env) (w : Service) : PomodoroRecord :=
  buildRecord env w
    match sessionStartTime w with
    | Some t => t
    | None => now env - workDuration (settings w) * 60 * 1000
    end.

(** ** Predicates on states *)

(** [P] holds of the timer state and of the copy in storage, if any. *)
Definition everywhere (P : TimerState -> Prop) (w : Service) : Prop :=
  P (timerState w) /\ forall t, stored_timerState w = Some t -> P t.

(** The invariant of the data model: running exactly when a deadline is
    set. *)
Definition running_iff_endTime (t : TimerState) : Prop :=
  isRunning t = true <-> endTime t <> None.

(** The phase is one of the three, the cycle counter is at least one, and
    the kind of break agrees with the cycle it follows. *)
Definition phase_matches_cycle (t : TimerState) : Prop :=
  1 <= currentCycle t /\
  (currentPhase t = "work"%string \/
   (currentPhase t = "short-break"%string /\ Z.rem (currentCycle t) 4 <> 0) \/
   (currentPhase t = "long-break"%string /\ Z.rem (currentCycle t) 4 = 0)).

(** Both history stores hold at most 1000 records. *)
Definition history_bounded (w : Service) : Prop :=
  (List.length (history_of (sync_history w)) <= 1000)%nat /\
  (List.length (history_of (local_history w)) <= 1000)%nat.

(** ** Runs with validated input

    The data model asks for positive durations, and the clock of a real
    host is past the epoch.  The service does not check either; the runs
    in which both hold are singled out here. *)

Definition valid_settings (s : Settings) : Prop :=
  0 < workDuration s /\ 0 < shortBreakDuration s /\ 0 < longBreakDuration s.

Definition valid_patch (p : SettingsPatch) : Prop :=
  (forall v, patch_workDuration p = Some v -> 0 < v) /\
  (forall v, patch_shortBreakDuration p = Some v -> 0 < v) /\
  (forall v, patch_longBreakDuration p = Some v -> 0 < v).

Definition valid_event (ev : Event) : Prop :=
  match ev with
  | Command (START_TIMER p) => valid_patch p
  | Command (UPDATE_SETTINGS p) => valid_patch p
  | _ => True
  end.

Inductive reachable_valid : Service -> Prop :=
| reachable_valid_start (env : Env) :
    0 < now env -> reachable_valid (startService env fresh_host)
| reachable_valid_step (env : Env) (ev : Event) (w : Service) :
    0 < now env -> valid_event ev ->
    reachable_valid w -> reachable_valid (step env ev w).

(** A running timer has time left and a deadline past the epoch. *)
Definition live (t : TimerState) : Prop :=
  isRunning t = true ->
  0 < timeRemaining t /\ exists e, endTime t = Some e /\ 0 < e.

Definition well_configured (w : Service) : Prop :=
  valid_settings (settings w) /\
  (forall s, stored_timerSettings w = Some s -> valid_settings s) /\
  everywhere live w.

(** ** The popup's figures for today

    [renderTodayStats] of the popup: the records of the log dated today,
    their number and the sum of their durations, the two figures it writes
    to the page.  [today] is the host's calendar day of the moment. *)

Definition sumDurations (records : list PomodoroRecord) : Z :=
  fold_left (fun sum record => sum + duration record) records 0.

Record TodayStats : Type := mkTodayStats {
  todayCount : Z;
  todayMinutes : Z
}.

Definition renderTodayStats (env : Env) (history : list PomodoroRecord)
  : TodayStats :=
  let today := isoDay (now env) in
  let todayRecords :=
    filter (fun record => (date record =? today)%string) history in
  mkTodayStats (Z.of_nat (List.length todayRecords)) (sumDurations todayRecords).

(** ** The phase function of the demo script

    [getNextPhase] of [testTimerLogic]: the phase the script expects after
    a completion. *)
Definition getNextPhase (currentPhase : string) (cycle : Z) : string :=
  if (currentPhase =? "work")%string then
    if Z.rem cycle 4 =? 0 then "long-break"%string else "short-break"%string
  else "work"%string.

(** ** More predicates on states *)

(** A record as the analytics expect it: a type to group by and a positive
    number of minutes. *)
Definition record_ok (r : PomodoroRecord) : Prop :=
  type r <> ""%string /\ 0 < duration r.

Definition records_ok (w : Service) : Prop :=
  Forall record_ok (history_of (sync_history w)) /\
  Forall record_ok (history_of (local_history w)).

(** A running timer has its alarm armed. *)
Definition armed (w : Service) : Prop :=
  isRunning (timerState w) = true -> exists a, alarm w = Some a.

(** There is time on the clock. *)
Definition has_time_left (t : TimerState) : Prop := 0 < timeRemaining t.

(** The log after one append per record of [rs], in order. *)
Definition pushAll (h : option (list PomodoroRecord)) (rs : list PomodoroRecord)
  : option (list PomodoroRecord) :=
  fold_left (fun log r => Some (pushLimited log r)) rs h.

End Service.

(** ** States of the examples *)

(** The service of a first installation at [env0]. *)
Definition installed : Service :=
  startService (clock := utc_host) env0 fresh_host.

(** The same after a start command: running in work, cycle 1, 1500 s. *)
Definition started : Service :=
  step (clock := utc_host) env0
    (Command (START_TIMER (mkSettingsPatch None None None))) installed.

(** The run of a user who skips from the installation to the third short
    break: work 1, break, work 2, break, work 3, break. *)
Definition third_break : Service :=
  let skip := step (clock := utc_host) env0 (Command SKIP_PHASE) in
  skip (skip (skip (skip (skip installed)))).

(** A stored timer state whose deadline passed 90 seconds before [env0],
    and a host that holds it. *)
Definition saved90 : TimerState :=
  mkTimerState true "work" 1 1500 (Some (1700000000000 - 90000)).

Definition host90 : Service := set_stored_timerState (Some saved90) fresh_host.

Definition sample_record : PomodoroRecord :=
  mkPomodoroRecord 1700000000000 "2023-11-14" "21:48" 25 "工作".

(** Half a second before the deadline of [started], ten seconds after its
    start, and a moment of the next day. *)
Definition env_early : Env := mkEnv 1700001499500 false false.
Definition env_10s : Env := mkEnv 1700000010000 false false.
Definition env_next_day : Env := mkEnv 1700086400000 false false.

(** An outage of the synced store at [env0]. *)
Definition env_outage : Env := mkEnv 1700000000000 true false.

Definition no_patch : SettingsPatch := mkSettingsPatch None None None.

(** The fourth work phase of the same user, one more skip after
    [third_break]: stopped in work, cycle 4, three records in the log. *)
Definition fourth_work : Service :=
  step (clock := utc_host) env0 (Command SKIP_PHASE) third_break.

(** Two hours after [env0]: 00:13:20 UTC of the next day. *)
Definition env_2h : Env := mkEnv 1700007200000 false false.

(** ** Basic facts *)

(** Evaluation of an operation on a state given by its fields: the
    service's own definitions are unfolded by value, tests on symbolic
    strings and numbers are left alone and then split by cases. *)
Ltac service_eval :=
  cbv beta iota zeta delta
    [onTimerComplete skipPhase startTimer pauseTimer resetTimer
     updateTimeRemaining restoreTimer init construct startService
     recordCompletedPomodoro buildRecord history_of getHistory clearHistory
     moveToNextPhase getCurrentPhaseDuration getNextPhaseName
     showNotification playNotificationSound broadcastUpdate updateIcon
     loadState saveState loadSettings saveSettings startAlarm clearAlarm
     handleMessage step
     upd emit set_timerState set_settings set_currentTaskType
     set_sessionStartTime set_alarm set_stored_timerState
     set_stored_timerSettings set_sync_history set_local_history
     with_isRunning with_currentPhase with_currentCycle with_timeRemaining
     with_endTime
     timerState settings currentTaskType sessionStartTime alarm
     stored_timerState stored_timerSettings sync_history local_history effects
     isRunning currentPhase currentCycle timeRemaining endTime
     workDuration shortBreakDuration longBreakDuration
     now syncFails localFails
     stateAfterCompletion recordOf
     fst snd negb andb].

Ltac service_eval_in H :=
  cbv beta iota zeta delta
    [onTimerComplete skipPhase startTimer pauseTimer resetTimer
     updateTimeRemaining restoreTimer init construct startService
     recordCompletedPomodoro buildRecord history_of getHistory clearHistory
     moveToNextPhase getCurrentPhaseDuration getNextPhaseName
     showNotification playNotificationSound broadcastUpdate updateIcon
     loadState saveState loadSettings saveSettings startAlarm clearAlarm
     handleMessage step
     upd emit set_timerState set_settings set_currentTaskType
     set_sessionStartTime set_alarm set_stored_timerState
     set_stored_timerSettings set_sync_history set_local_history
     with_isRunning with_currentPhase with_currentCycle with_timeRemaining
     with_endTime
     timerState settings currentTaskType sessionStartTime alarm
     stored_timerState stored_timerSettings sync_history local_history effects
     isRunning currentPhase currentCycle timeRemaining endTime
     workDuration shortBreakDuration longBreakDuration
     now syncFails localFails
     stateAfterCompletion recordOf
     fst snd negb andb] in H.

Ltac split_test :=
  match goal with
  | |- context [if ?b then _ else _] =>
      lazymatch b with
      | context [if _ then _ else _] => fail
      | _ => idtac
      end;
      let E := fresh "E" in
      destruct b eqn:E;
      try (vm_compute in E; discriminate E);
      try congruence
  end.

Ltac service_crush :=
  service_eval; repeat (split_test; service_eval).

Ltac open_state w env :=
  destruct w as [[? ? ? ? ?] ? ? ? ? ? ? ? ? ?];
  destruct env as [? [|] [|]].

Section ServiceProperties.

Context {clock : HostClock}.

(** [recordCompletedPomodoro] touches the history stores and the start
    marker only. *)
Lemma recordCompletedPomodoro_frame (env : Env) (w : Service) :
  let w' := recordCompletedPomodoro env w in
  timerState w' = timerState w /\ settings w' = settings w /\
  currentTaskType w' = currentTaskType w /\ alarm w' = alarm w /\
  stored_timerState w' = stored_timerState w /\
  stored_timerSettings w' = stored_timerSettings w /\
  effects w' = effects w.
Proof.
  open_state w env; service_crush; repeat split.
Qed.

(** The timer state after a completion is the phase move applied to the
    stopped state: nothing else in [onTimerComplete] writes to it. *)
Lemma onTimerComplete_timerState (env : Env) (w : Service) :
  timerState (onTimerComplete env w) =
  timerState (moveToNextPhase
                (upd (with_endTime None) (upd (with_isRunning false) w))).
Proof.
  open_state w env; service_crush; reflexivity.
Qed.

Lemma moveToNextPhase_from_work (w : Service) :
  currentPhase (timerState w) = "work"%string ->
  timerState (moveToNextPhase w) =
  if Z.rem (currentCycle (timerState w)) 4 =? 0
  then with_timeRemaining (longBreakDuration (settings w) * 60)
         (with_currentPhase "long-break" (timerState w))
  else with_timeRemaining (shortBreakDuration (settings w) * 60)
         (with_currentPhase "short-break" (timerState w)).
Proof.
  intros Hp. unfold moveToNextPhase. rewrite Hp.
  change ("work" =? "work")%string with true. cbv iota zeta.
  destruct (Z.rem _ 4 =? 0); reflexivity.
Qed.

Lemma moveToNextPhase_from_break (w : Service) :
  currentPhase (timerState w) <> "work"%string ->
  timerState (moveToNextPhase w) =
  with_currentCycle (currentCycle (timerState w) + 1)
    (with_timeRemaining (workDuration (settings w) * 60)
       (with_currentPhase "work" (timerState w))).
Proof.
  intros Hp. unfold moveToNextPhase.
  destruct (String.eqb_spec (currentPhase (timerState w)) "work");
    [contradiction | reflexivity].
Qed.

(** The timer state that a completion leaves, written out. *)
Lemma onTimerComplete_from_work (env : Env) (w : Service) :
  currentPhase (timerState w) = "work"%string ->
  timerState (onTimerComplete env w) =
  if Z.rem (currentCycle (timerState w)) 4 =? 0
  then mkTimerState false "long-break" (currentCycle (timerState w))
         (longBreakDuration (settings w) * 60) None
  else mkTimerState false "short-break" (currentCycle (timerState w))
         (shortBreakDuration (settings w) * 60) None.
Proof.
  intros Hp. rewrite onTimerComplete_timerState.
  rewrite moveToNextPhase_from_work by exact Hp.
  service_eval. destruct (Z.rem _ 4 =? 0); reflexivity.
Qed.

Lemma onTimerComplete_from_break (env : Env) (w : Service) :
  currentPhase (timerState w) <> "work"%string ->
  timerState (onTimerComplete env w) =
  mkTimerState false "work" (currentCycle (timerState w) + 1)
    (workDuration (settings w) * 60) None.
Proof.
  intros Hp. rewrite onTimerComplete_timerState.
  rewrite moveToNextPhase_from_break by exact Hp.
  reflexivity.
Qed.

Lemma onTimerComplete_settings (env : Env) (w : Service) :
  settings (onTimerComplete env w) = settings w.
Proof.
  open_state w env; service_crush; reflexivity.
Qed.

Lemma onTimerComplete_closed_form (env : Env) (w : Service) :
  timerState (onTimerComplete env w) =
  stateAfterCompletion (settings w) (timerState w).
Proof.
  unfold stateAfterCompletion.
  destruct (String.eqb_spec (currentPhase (timerState w)) "work") as [Hp | Hp].
  - apply onTimerComplete_from_work; exact Hp.
  - apply onTimerComplete_from_break; exact Hp.
Qed.

Lemma completions_closed_form (envs : list Env) (w : Service) :
  completions envs w =
  statesAfterCompletions (List.length envs) (settings w) (timerState w).
Proof.
  revert w; induction envs as [| env rest IH]; intros w;
    cbn [completions List.length statesAfterCompletions].
  - reflexivity.
  - rewrite IH, onTimerComplete_settings, onTimerComplete_closed_form.
    reflexivity.
Qed.

(** ** The claims *)

(** C2. The phase transition applied by a completion: from work at a cycle
    divisible by four to the long break, from work otherwise to the short
    break, from any break to work with the cycle counted up by one; the
    new remaining time is the full duration of the new phase (minutes of
    the settings, in seconds).  With 25/5/15 from cycle 1 the run is
    short break, work 2, short break, work 3, short break, work 4, long
    break. *)
Theorem C2_phase_transition (env : Env) (w : Service) :
  let t := timerState w in
  let t' := timerState (onTimerComplete env w) in
  (currentPhase t = "work"%string -> Z.rem (currentCycle t) 4 = 0 ->
     currentPhase t' = "long-break"%string /\
     timeRemaining t' = longBreakDuration (settings w) * 60 /\
     currentCycle t' = currentCycle t) /\
  (currentPhase t = "work"%string -> Z.rem (currentCycle t) 4 <> 0 ->
     currentPhase t' = "short-break"%string /\
     timeRemaining t' = shortBreakDuration (settings w) * 60 /\
     currentCycle t' = currentCycle t) /\
  (currentPhase t <> "work"%string ->
     currentPhase t' = "work"%string /\
     timeRemaining t' = workDuration (settings w) * 60 /\
     currentCycle t' = currentCycle t + 1) /\
  (forall e1 e2 e3 e4 e5 e6 e7 : Env,
     currentPhase t = "work"%string -> currentCycle t = 1 ->
     settings w = mkSettings 25 5 15 ->
     map (fun x => (currentPhase x, currentCycle x, timeRemaining x))
         (completions [e1; e2; e3; e4; e5; e6; e7] w) =
     [("short-break"%string, 1, 300); ("work"%string, 2, 1500);
      ("short-break"%string, 2, 300); ("work"%string, 3, 1500);
      ("short-break"%string, 3, 300); ("work"%string, 4, 1500);
      ("long-break"%string, 4, 900)]).
Proof.
  cbv zeta. repeat split.
  1-3: rewrite onTimerComplete_from_work by assumption;
       match goal with H : Z.rem _ 4 = 0 |- _ =>
         apply Z.eqb_eq in H; rewrite H end; reflexivity.
  1-3: rewrite onTimerComplete_from_work by assumption;
       match goal with H : Z.rem _ 4 <> 0 |- _ =>
         apply Z.eqb_neq in H; rewrite H end; reflexivity.
  1-3: rewrite onTimerComplete_from_break by assumption; reflexivity.
  intros e1 e2 e3 e4 e5 e6 e7 Hp Hc Hs.
  rewrite completions_closed_form, Hs.
  destruct (timerState w) as [r p c tr e]; cbn in Hp, Hc; subst p c.
  vm_compute. reflexivity.
Qed.

(** What a completion sends out: one notification, the sound request, the
    badge and the broadcast of the new state. *)
Lemma onTimerComplete_effects (env : Env) (w : Service) :
  effects (onTimerComplete env w) =
  effects w ++
    [NotificationCreate (phaseNames (currentPhase (timerState w)))
                        (getNextPhaseName w);
     PlaySound;
     IconUpdate (timerState (onTimerComplete env w));
     TimerUpdate (timerState (onTimerComplete env w))].
Proof.
  open_state w env; service_crush;
    repeat rewrite <- app_assoc; reflexivity.
Qed.

Lemma onTimerComplete_completed (env : Env) (w : Service) :
  completed (onTimerComplete env w) = S (completed w).
Proof.
  unfold completed. rewrite onTimerComplete_effects, filter_app, length_app.
  cbn [filter is_notification List.length]. lia.
Qed.

Lemma onTimerComplete_stopped (env : Env) (w : Service) :
  isRunning (timerState (onTimerComplete env w)) = false /\
  endTime (timerState (onTimerComplete env w)) = None.
Proof.
  rewrite onTimerComplete_closed_form. unfold stateAfterCompletion.
  destruct (_ =? _)%string; [destruct (_ =? _) |]; split; reflexivity.
Qed.

(** Loading at start-up: with the storage readable the timer state is the
    stored one; nothing is sent and the history is not touched. *)
Lemma loaded_timerState (env : Env) (host : Service) (saved : TimerState) :
  stored_timerState host = Some saved ->
  localFails env = false ->
  timerState (loadSettings env (loadState env (construct host))) = saved.
Proof.
  intros Hst Hlf.
  destruct host as [ts s ty m a st ss sh lh ef]; destruct env as [n sf lf].
  service_eval_in Hst; service_eval_in Hlf; subst st lf. service_eval.
  destruct sf; [| destruct ss]; reflexivity.
Qed.

Lemma loaded_frame (env : Env) (host : Service) :
  let loaded := loadSettings env (loadState env (construct host)) in
  effects loaded = effects host /\
  alarm loaded = alarm host /\
  stored_timerState loaded = stored_timerState host /\
  sync_history loaded = sync_history host /\
  local_history loaded = local_history host.
Proof.
  destruct host as [ts s ty m a st ss sh lh ef]; destruct env as [n sf lf].
  service_eval.
  destruct lf, sf, st, ss; repeat split.
Qed.


(** ** The timer state written by each operation *)

Lemma startTimer_timerState (env : Env) (w : Service) :
  let r := if timeRemaining (timerState w) <=? 0
           then getCurrentPhaseDuration w
           else timeRemaining (timerState w) in
  timerState (startTimer env w) =
  mkTimerState true (currentPhase (timerState w))
    (currentCycle (timerState w)) r (Some (now env + r * 1000)).
Proof.
  open_state w env; service_crush; reflexivity.
Qed.

Lemma pauseTimer_timerState (env : Env) (w : Service) :
  timerState (pauseTimer env w) =
  with_endTime None (with_isRunning false (timerState w)).
Proof.
  open_state w env; service_crush; reflexivity.
Qed.

Lemma resetTimer_timerState (env : Env) (w : Service) :
  timerState (resetTimer env w) =
  mkTimerState false "work" 1 (workDuration (settings w) * 60) None.
Proof.
  open_state w env; service_crush; reflexivity.
Qed.

Lemma skipPhase_timerState (env : Env) (w : Service) :
  timerState (skipPhase env w) = timerState (onTimerComplete env w).
Proof.
  unfold skipPhase. rewrite !onTimerComplete_closed_form. reflexivity.
Qed.

(** Every operation that changes the timer state saves it: afterwards the
    stored copy is the new state, or the old copy when the write failed. *)
Lemma onTimerComplete_stored (env : Env) (w : Service) :
  stored_timerState (onTimerComplete env w) =
  if localFails env then stored_timerState w
  else Some (timerState (onTimerComplete env w)).
Proof.
  open_state w env; service_crush; reflexivity.
Qed.

Lemma startTimer_stored (env : Env) (w : Service) :
  stored_timerState (startTimer env w) =
  if localFails env then stored_timerState w
  else Some (timerState (startTimer env w)).
Proof.
  open_state w env; service_crush; reflexivity.
Qed.

Lemma pauseTimer_stored (env : Env) (w : Service) :
  stored_timerState (pauseTimer env w) =
  if localFails env then stored_timerState w
  else Some (timerState (pauseTimer env w)).
Proof.
  open_state w env; service_crush; reflexivity.
Qed.

Lemma resetTimer_stored (env : Env) (w : Service) :
  stored_timerState (resetTimer env w) =
  if localFails env then stored_timerState w
  else Some (timerState (resetTimer env w)).
Proof.
  open_state w env; service_crush; reflexivity.
Qed.

(** The poll and the recovery block either leave the service as it is,
    or only refresh the remaining time, or refresh it and complete. *)
Lemma updateTimeRemaining_cases (env : Env) (w : Service) :
  updateTimeRemaining env w = w \/
  (exists r w1,
     timerState w1 = with_timeRemaining r (timerState w) /\
     stored_timerState w1 = stored_timerState w /\
     settings w1 = settings w /\
     stored_timerSettings w1 = stored_timerSettings w /\
     sync_history w1 = sync_history w /\
     local_history w1 = local_history w /\
     ((updateTimeRemaining env w = w1 /\ 0 < r) \/
      updateTimeRemaining env w = onTimerComplete env w1)).
Proof.
  unfold updateTimeRemaining.
  destruct (isRunning (timerState w) && truthy_number (endTime (timerState w)));
    [| left; reflexivity].
  destruct (endTime (timerState w)) as [e |]; [| left; reflexivity].
  cbv zeta.
  destruct (negb (timeLeft e (now env) =? timeRemaining (timerState w)));
    [| left; reflexivity].
  right. exists (timeLeft e (now env)).
  exists (broadcastUpdate
            (updateIcon (upd (with_timeRemaining (timeLeft e (now env))) w))).
  do 6 (split; [reflexivity |]).
  destruct (Z.leb_spec (timeLeft e (now env)) 0) as [Hle | Hgt].
  - right; reflexivity.
  - left; split; [reflexivity | exact Hgt].
Qed.

Lemma restoreTimer_cases (env : Env) (w : Service) :
  restoreTimer env w = w \/
  restoreTimer env w = onTimerComplete env w \/
  (exists r,
     0 < r /\
     timerState (restoreTimer env w) = with_timeRemaining r (timerState w) /\
     stored_timerState (restoreTimer env w) = stored_timerState w /\
     settings (restoreTimer env w) = settings w /\
     stored_timerSettings (restoreTimer env w) = stored_timerSettings w /\
     sync_history (restoreTimer env w) = sync_history w /\
     local_history (restoreTimer env w) = local_history w).
Proof.
  unfold restoreTimer.
  destruct (isRunning (timerState w) && truthy_number (endTime (timerState w)));
    [| left; reflexivity].
  destruct (endTime (timerState w)) as [e |]; [| left; reflexivity].
  cbv zeta.
  destruct (Z.ltb_spec 0 (timeLeft e (now env))) as [Hlt | Hge].
  - right; right. exists (timeLeft e (now env)).
    split; [exact Hlt | repeat split].
  - right; left. reflexivity.
Qed.

(** ** A proof principle for properties of the timer state

    A property of timer states that holds of the default state and is kept
    by the five ways the service writes the state holds of the timer state,
    and of its stored copy, in every reachable state. *)
Section TimerStateInvariant.

Variable P : TimerState -> Prop.
Hypothesis P_default : P default_timerState.
Hypothesis P_complete : forall s t, P t -> P (stateAfterCompletion s t).
Hypothesis P_start :
  forall t r e,
    P t -> P (mkTimerState true (currentPhase t) (currentCycle t) r (Some e)).
Hypothesis P_pause : forall t, P t -> P (with_endTime None (with_isRunning false t)).
Hypothesis P_reset : forall r, P (mkTimerState false "work" 1 r None).
Hypothesis P_time : forall t r, P t -> P (with_timeRemaining r t).

Lemma everywhere_intro (w w' : Service) :
  everywhere P w ->
  P (timerState w') ->
  (stored_timerState w' = stored_timerState w \/
   stored_timerState w' = Some (timerState w')) ->
  everywhere P w'.
Proof.
  intros [Ht Hs] Ht' Hst. split; [exact Ht' |].
  intros t Heq. destruct Hst as [Hst | Hst]; rewrite Hst in Heq.
  - apply Hs; exact Heq.
  - injection Heq as <-. exact Ht'.
Qed.

Lemma everywhere_onTimerComplete (env : Env) (w : Service) :
  everywhere P w -> everywhere P (onTimerComplete env w).
Proof.
  intros H. apply (everywhere_intro w); [exact H | |].
  - rewrite onTimerComplete_closed_form. apply P_complete, (proj1 H).
  - rewrite onTimerComplete_stored. destruct (localFails env); auto.
Qed.

Lemma everywhere_same (w w' : Service) :
  everywhere P w ->
  timerState w' = timerState w ->
  stored_timerState w' = stored_timerState w ->
  everywhere P w'.
Proof.
  intros H Ht Hs. apply (everywhere_intro w); [exact H | | left; exact Hs].
  rewrite Ht. apply (proj1 H).
Qed.

Lemma everywhere_startService (env : Env) (host : Service) :
  everywhere P host -> everywhere P (startService env host).
Proof.
  intros [Ht Hs].
  set (loaded := loadSettings env (loadState env (construct host))).
  assert (Hl : everywhere P loaded).
  { unfold loaded, everywhere.
    destruct host as [ts s ty m a st ss sh lh ef];
      destruct env as [n sf lf]; service_eval.
    split.
    - destruct lf, sf, st, ss;
        first [exact P_default | apply Hs; reflexivity].
    - intros t Heq. apply Hs.
      destruct lf, sf, st, ss; exact Heq. }
  assert (Hr : everywhere P (restoreTimer env loaded)).
  { destruct (restoreTimer_cases env loaded)
      as [Heq | [Heq | [r (_ & H1 & H2 & _)]]].
    - rewrite Heq; exact Hl.
    - rewrite Heq; apply everywhere_onTimerComplete; exact Hl.
    - apply (everywhere_intro loaded); [exact Hl | | left; exact H2].
      rewrite H1. apply P_time, (proj1 Hl). }
  apply (everywhere_same (restoreTimer env loaded)); [exact Hr | |]; reflexivity.
Qed.

Lemma everywhere_step (env : Env) (ev : Event) (w : Service) :
  everywhere P w -> everywhere P (step env ev w).
Proof.
  intros H. destruct ev as [m | | |]; cbn [step].
  - destruct m as [| p | | | | p | | | | t | t]; cbn [handleMessage fst];
      try exact H.
    + (* START_TIMER *)
      set (w1 := set_settings _ w).
      apply (everywhere_intro w); [exact H | |].
      * rewrite startTimer_timerState. apply (P_start (timerState w)), (proj1 H).
      * rewrite startTimer_stored. destruct (localFails env); auto.
    + apply (everywhere_intro w); [exact H | |].
      * rewrite pauseTimer_timerState. apply P_pause, (proj1 H).
      * rewrite pauseTimer_stored. destruct (localFails env); auto.
    + unfold skipPhase. apply everywhere_onTimerComplete.
      apply (everywhere_same w); [exact H | |]; reflexivity.
    + apply (everywhere_intro w); [exact H | |].
      * rewrite resetTimer_timerState. apply P_reset.
      * rewrite resetTimer_stored. destruct (localFails env); auto.
    + apply (everywhere_same w); [exact H | |];
        unfold saveSettings; destruct (syncFails env); reflexivity.
    + apply (everywhere_same w); [exact H | |];
        unfold clearHistory; destruct (syncFails env), (localFails env);
        reflexivity.
  - apply everywhere_onTimerComplete.
    apply (everywhere_same w); [exact H | |]; reflexivity.
  - destruct (updateTimeRemaining_cases env w)
      as [Heq | (r & w1 & H1 & H2 & _ & _ & _ & _ & [[Heq _] | Heq])].
    + rewrite Heq; exact H.
    + rewrite Heq. apply (everywhere_intro w); [exact H | | left; exact H2].
      rewrite H1. apply P_time, (proj1 H).
    + rewrite Heq. apply everywhere_onTimerComplete.
      apply (everywhere_intro w); [exact H | | left; exact H2].
      rewrite H1. apply P_time, (proj1 H).
  - apply everywhere_startService; exact H.
Qed.

Lemma reachable_everywhere (w : Service) : reachable w -> everywhere P w.
Proof.
  induction 1 as [env | env ev w Hr IH].
  - apply everywhere_startService. split; [exact P_default |].
    intros t Heq; discriminate Heq.
  - apply everywhere_step; exact IH.
Qed.

End TimerStateInvariant.

(** ** Invariants of reachable states *)

Lemma reachable_running_iff_endTime (w : Service) :
  reachable w -> everywhere running_iff_endTime w.
Proof.
  apply reachable_everywhere; unfold running_iff_endTime.
  - cbn. split; [discriminate | congruence].
  - intros s t _. unfold stateAfterCompletion.
    destruct (_ =? _)%string; [destruct (_ =? _) |]; cbn;
      (split; [discriminate | congruence]).
  - intros t r e _. cbn. split; [discriminate | reflexivity].
  - intros t _. cbn. split; [discriminate | congruence].
  - intros r. cbn. split; [discriminate | congruence].
  - intros t r H. exact H.
Qed.

Lemma rem4_succ (c : Z) : 1 <= c -> (Z.rem (c + 1) 4 = 1 <-> Z.rem c 4 = 0).
Proof.
  intros Hc. rewrite !Z.rem_mod_nonneg by lia.
  pose proof (Z.mod_pos_bound c 4 ltac:(lia)) as Hb.
  rewrite Z.add_mod by lia.
  assert (Hcases : c mod 4 = 0 \/ c mod 4 = 1 \/ c mod 4 = 2 \/ c mod 4 = 3)
    by lia.
  destruct Hcases as [H | [H | [H | H]]]; rewrite H; cbn; lia.
Qed.

Lemma reachable_phase_matches_cycle (w : Service) :
  reachable w -> everywhere phase_matches_cycle w.
Proof.
  apply reachable_everywhere; unfold phase_matches_cycle.
  - cbn. split; [lia | left; reflexivity].
  - intros s t [Hc Hp]. unfold stateAfterCompletion.
    destruct (String.eqb_spec (currentPhase t) "work") as [Hw | Hw].
    + destruct (Z.eqb_spec (Z.rem (currentCycle t) 4) 0) as [Hz | Hz]; cbn.
      * split; [exact Hc | right; right; split; [reflexivity | exact Hz]].
      * split; [exact Hc | right; left; split; [reflexivity | exact Hz]].
    + cbn. split; [lia | left; reflexivity].
  - intros t r e H. exact H.
  - intros t H. exact H.
  - intros r. cbn. split; [lia | left; reflexivity].
  - intros t r H. exact H.
Qed.

(** C4, in the form that holds of the code.  In every reachable state,
    when a completion (the alarm, the poll, the recovery or a skip) leaves
    a break and enters work, the cycle counter goes up by one, and the
    break just completed was the long break exactly when the new counter
    is 1 modulo 4, that is when the counter before the move was divisible
    by 4. *)
Theorem C4_long_break_precedes_cycle_1_mod_4 (env : Env) (w : Service) :
  reachable w ->
  currentPhase (timerState w) <> "work"%string ->
  let t' := timerState (onTimerComplete env w) in
  timerState (skipPhase env w) = t' /\
  currentPhase t' = "work"%string /\
  currentCycle t' = currentCycle (timerState w) + 1 /\
  (Z.rem (currentCycle t') 4 = 1 <->
   currentPhase (timerState w) = "long-break"%string) /\
  (Z.rem (currentCycle (timerState w)) 4 = 0 <->
   currentPhase (timerState w) = "long-break"%string).
Proof.
  intros Hr Hp t'.
  destruct (reachable_phase_matches_cycle w Hr) as [[Hc Hph] _].
  split; [apply skipPhase_timerState |].
  unfold t'. rewrite onTimerComplete_from_break by exact Hp. cbn.
  split; [reflexivity |]. split; [reflexivity |].
  assert (Hiff : Z.rem (currentCycle (timerState w)) 4 = 0 <->
                 currentPhase (timerState w) = "long-break"%string).
  { destruct Hph as [Hw | [[Hs Hn] | [Hl Hz]]].
    - contradiction.
    - rewrite Hs. split; [intros Hz; contradiction | discriminate].
    - split; intros _; assumption. }
  split; [| exact Hiff].
  rewrite rem4_succ by exact Hc. exact Hiff.
Qed.

(** C5.  In every reachable state the timer is running exactly when a
    deadline is set, and each of start, pause, skip, reset and completion
    ends in a state where this holds. *)
Theorem C5_running_iff_endTime :
  (forall w, reachable w ->
     (isRunning (timerState w) = true <-> endTime (timerState w) <> None)) /\
  (forall env w,
     running_iff_endTime (timerState (startTimer env w)) /\
     running_iff_endTime (timerState (pauseTimer env w)) /\
     running_iff_endTime (timerState (skipPhase env w)) /\
     running_iff_endTime (timerState (resetTimer env w)) /\
     running_iff_endTime (timerState (onTimerComplete env w))).
Proof.
  split.
  - intros w Hr. exact (proj1 (reachable_running_iff_endTime w Hr)).
  - intros env w. unfold running_iff_endTime.
    rewrite startTimer_timerState, pauseTimer_timerState,
      skipPhase_timerState, resetTimer_timerState.
    destruct (onTimerComplete_stopped env w) as [H1 H2].
    rewrite H1, H2. cbn.
    repeat split; first [discriminate | congruence].
Qed.

(** What [resetTimer] does, for every state: it leaves exactly the timer
    state work, cycle 1, the full work duration of the current settings,
    stopped and without deadline, and disarms the alarm, as C6 asks; it
    does not write the session-start marker, which C6 wants discarded. *)
Theorem C6_reset (env : Env) (w : Service) :
  timerState (resetTimer env w) =
    mkTimerState false "work" 1 (workDuration (settings w) * 60) None /\
  alarm (resetTimer env w) = None /\
  sessionStartTime (resetTimer env w) = sessionStartTime w.
Proof.
  split; [apply resetTimer_timerState |].
  open_state w env; service_crush; split; reflexivity.
Qed.

(** ** The history log *)

Lemma slice_last_length {A : Type} (n : nat) (l : list A) :
  List.length (slice_last n l) = Nat.min n (List.length l).
Proof.
  unfold slice_last. rewrite length_skipn. lia.
Qed.

Lemma slice_last_suffix {A : Type} (n : nat) (l : list A) :
  l = firstn (List.length l - n) l ++ slice_last n l.
Proof.
  unfold slice_last. symmetry. apply firstn_skipn.
Qed.

Lemma slice_last_short {A : Type} (n : nat) (l : list A) :
  (List.length l <= n)%nat -> slice_last n l = l.
Proof.
  intros H. unfold slice_last.
  replace (List.length l - n)%nat with 0%nat by lia. reflexivity.
Qed.

Lemma slice_last_push_full {A : Type} (n : nat) (l : list A) (x : A) :
  (0 < n)%nat -> List.length l = n -> slice_last n (l ++ [x]) = tl l ++ [x].
Proof.
  intros Hn Hl. unfold slice_last. rewrite length_app.
  cbn [List.length]. replace (List.length l + 1 - n)%nat with 1%nat by lia.
  destruct l as [| y l']; [cbn in Hl; lia | reflexivity].
Qed.

Lemma pushLimited_length (h : option (list PomodoroRecord)) (r : PomodoroRecord) :
  List.length (pushLimited h r) =
  Nat.min 1000 (List.length (history_of h) + 1).
Proof.
  unfold pushLimited. rewrite slice_last_length, length_app. reflexivity.
Qed.

Lemma pushLimited_last (h : option (list PomodoroRecord)) (r : PomodoroRecord) :
  exists kept, pushLimited h r = kept ++ [r].
Proof.
  unfold pushLimited, slice_last. rewrite length_app. cbn [List.length].
  set (l := history_of h).
  destruct (Nat.le_gt_cases (List.length l + 1 - 1000) (List.length l))
    as [Hle | Hgt]; [| lia].
  exists (skipn (List.length l + 1 - 1000) l).
  rewrite skipn_app.
  replace (List.length l + 1 - 1000 - List.length l)%nat with 0%nat by lia.
  reflexivity.
Qed.

(** What a completion writes to the two history stores and to the start
    marker. *)
Lemma onTimerComplete_history (env : Env) (w : Service) :
  let work := (currentPhase (timerState w) =? "work")%string in
  let w' := onTimerComplete env w in
  sync_history w' =
    (if work && negb (syncFails env)
     then Some (pushLimited (sync_history w) (recordOf env w))
     else sync_history w) /\
  local_history w' =
    (if work && syncFails env && negb (localFails env)
     then Some (pushLimited (local_history w) (recordOf env w))
     else local_history w) /\
  sessionStartTime w' = (if work then None else sessionStartTime w).
Proof.
  open_state w env; service_crush; repeat split; reflexivity.
Qed.

Lemma history_bounded_intro (w w' : Service) (r1 r2 : PomodoroRecord) :
  history_bounded w ->
  (sync_history w' = sync_history w \/ sync_history w' = None \/
   sync_history w' = Some (pushLimited (sync_history w) r1)) ->
  (local_history w' = local_history w \/ local_history w' = None \/
   local_history w' = Some (pushLimited (local_history w) r2)) ->
  history_bounded w'.
Proof.
  unfold history_bounded. intros [Hs Hl] Hs' Hl'. split.
  - destruct Hs' as [-> | [-> | ->]]; cbn [history_of List.length];
      [exact Hs | lia | rewrite pushLimited_length; lia].
  - destruct Hl' as [-> | [-> | ->]]; cbn [history_of List.length];
      [exact Hl | lia | rewrite pushLimited_length; lia].
Qed.

Lemma history_bounded_onTimerComplete (env : Env) (w : Service) :
  history_bounded w -> history_bounded (onTimerComplete env w).
Proof.
  intros H.
  destruct (onTimerComplete_history env w) as (Hs & Hl & _).
  apply (history_bounded_intro w _ (recordOf env w) (recordOf env w) H).
  - rewrite Hs.
    destruct (_ =? _)%string, (syncFails env); cbn [andb negb]; auto.
  - rewrite Hl.
    destruct (_ =? _)%string, (syncFails env), (localFails env);
      cbn [andb negb]; auto.
Qed.

Lemma history_bounded_same (w w' : Service) :
  history_bounded w ->
  sync_history w' = sync_history w ->
  local_history w' = local_history w ->
  history_bounded w'.
Proof.
  unfold history_bounded. intros H -> ->. exact H.
Qed.

Lemma startTimer_history (env : Env) (w : Service) :
  sync_history (startTimer env w) = sync_history w /\
  local_history (startTimer env w) = local_history w.
Proof.
  open_state w env; service_crush; split; reflexivity.
Qed.

Lemma pauseTimer_history (env : Env) (w : Service) :
  sync_history (pauseTimer env w) = sync_history w /\
  local_history (pauseTimer env w) = local_history w.
Proof.
  open_state w env; service_crush; split; reflexivity.
Qed.

Lemma resetTimer_history (env : Env) (w : Service) :
  sync_history (resetTimer env w) = sync_history w /\
  local_history (resetTimer env w) = local_history w.
Proof.
  open_state w env; service_crush; split; reflexivity.
Qed.

Lemma history_bounded_startService (env : Env) (host : Service) :
  history_bounded host -> history_bounded (startService env host).
Proof.
  intros H.
  set (loaded := loadSettings env (loadState env (construct host))).
  assert (Hl : history_bounded loaded).
  { destruct (loaded_frame env host) as (_ & _ & _ & Hs & Hlo).
    apply (history_bounded_same host); assumption. }
  assert (Hr : history_bounded (restoreTimer env loaded)).
  { destruct (restoreTimer_cases env loaded)
      as [Heq | [Heq | [r (_ & _ & _ & _ & _ & H4 & H5)]]].
    - rewrite Heq; exact Hl.
    - rewrite Heq; apply history_bounded_onTimerComplete; exact Hl.
    - apply (history_bounded_same loaded); assumption. }
  apply (history_bounded_same (restoreTimer env loaded)); [exact Hr | |];
    reflexivity.
Qed.

Lemma history_bounded_step (env : Env) (ev : Event) (w : Service) :
  history_bounded w -> history_bounded (step env ev w).
Proof.
  intros H. destruct ev as [m | | |]; cbn [step].
  - destruct m as [| p | | | | p | | | | t | t]; cbn [handleMessage fst];
      try exact H.
    + destruct (startTimer_history env (set_settings (merge_settings (settings w) p) w))
        as [Hs Hl].
      apply (history_bounded_same w); assumption.
    + destruct (pauseTimer_history env w) as [Hs Hl].
      apply (history_bounded_same w); assumption.
    + unfold skipPhase. apply history_bounded_onTimerComplete. exact H.
    + destruct (resetTimer_history env w) as [Hs Hl].
      apply (history_bounded_same w); assumption.
    + apply (history_bounded_same w); [exact H | |];
        unfold saveSettings; destruct (syncFails env); reflexivity.
    + unfold clearHistory.
      destruct (syncFails env); [exact H |].
      destruct (localFails env);
        destruct H as [Hs Hl]; split; cbn; first [exact Hl | lia].
  - apply history_bounded_onTimerComplete. exact H.
  - destruct (updateTimeRemaining_cases env w)
      as [Heq | (r & w1 & _ & _ & _ & _ & H4 & H5 & [[Heq _] | Heq])].
    + rewrite Heq; exact H.
    + rewrite Heq. apply (history_bounded_same w); assumption.
    + rewrite Heq. apply history_bounded_onTimerComplete.
      apply (history_bounded_same w); assumption.
  - apply history_bounded_startService; exact H.
Qed.

Lemma reachable_history_bounded (w : Service) :
  reachable w -> history_bounded w.
Proof.
  induction 1 as [env | env ev w Hr IH].
  - apply history_bounded_startService.
    split; cbn [fresh_host sync_history local_history history_of List.length]; lia.
  - apply history_bounded_step; exact IH.
Qed.

(** C7.  The history log never holds more than 1000 records.  An append
    keeps the last 1000 of the log with the new record at its end: below
    the bound nothing is dropped, at the bound the oldest record goes. *)
Theorem C7_history_bounded :
  (forall w, reachable w ->
     (List.length (history_of (sync_history w)) <= 1000)%nat /\
     (List.length (history_of (local_history w)) <= 1000)%nat) /\
  (forall h r,
     (List.length (pushLimited h r) <= 1000)%nat /\
     (exists kept, pushLimited h r = kept ++ [r]) /\
     history_of h ++ [r] =
       firstn (List.length (history_of h ++ [r]) - 1000) (history_of h ++ [r])
       ++ pushLimited h r /\
     ((List.length (history_of h) < 1000)%nat ->
        pushLimited h r = history_of h ++ [r]) /\
     (List.length (history_of h) = 1000%nat ->
        pushLimited h r = tl (history_of h) ++ [r])) /\
  (forall env w,
     currentPhase (timerState w) = "work"%string ->
     syncFails env = false ->
     sync_history (onTimerComplete env w) =
       Some (pushLimited (sync_history w) (recordOf env w))).
Proof.
  split; [| split].
  - intros w Hr. exact (reachable_history_bounded w Hr).
  - intros h r. split; [| split; [| split; [| split]]].
    + rewrite pushLimited_length. lia.
    + apply pushLimited_last.
    + unfold pushLimited. apply slice_last_suffix.
    + intros Hlt. unfold pushLimited. apply slice_last_short.
      rewrite length_app. cbn [List.length]. lia.
    + intros Heq. unfold pushLimited. apply slice_last_push_full; [lia | exact Heq].
  - intros env w Hp Hs.
    destruct (onTimerComplete_history env w) as (H1 & _).
    rewrite H1, Hp, Hs. reflexivity.
Qed.

(** ** Runs with validated input *)

Lemma reachable_valid_reachable (w : Service) : reachable_valid w -> reachable w.
Proof.
  induction 1 as [env Hn | env ev w Hn Hev Hr IH].
  - apply reachable_start.
  - apply reachable_step; exact IH.
Qed.

Lemma merge_settings_valid (s : Settings) (p : SettingsPatch) :
  valid_settings s -> valid_patch p -> valid_settings (merge_settings s p).
Proof.
  intros (Hw & Hs & Hl) (Pw & Ps & Pl).
  unfold valid_settings, merge_settings; cbn [workDuration shortBreakDuration longBreakDuration].
  destruct (patch_workDuration p) as [vw |],
           (patch_shortBreakDuration p) as [vs |],
           (patch_longBreakDuration p) as [vl |];
    repeat split;
    first [assumption | apply Pw; reflexivity | apply Ps; reflexivity
          | apply Pl; reflexivity].
Qed.

Lemma getCurrentPhaseDuration_pos (w : Service) :
  valid_settings (settings w) -> 0 < getCurrentPhaseDuration w.
Proof.
  intros (Hw & Hs & Hl). unfold getCurrentPhaseDuration. cbv zeta.
  destruct (_ =? "work")%string; [lia |].
  destruct (_ =? "short-break")%string; [lia |].
  destruct (_ =? "long-break")%string; lia.
Qed.

Lemma live_stopped (t : TimerState) : isRunning t = false -> live t.
Proof.
  intros H Hr. rewrite H in Hr. discriminate Hr.
Qed.

Lemma live_stateAfterCompletion (s : Settings) (t : TimerState) :
  live (stateAfterCompletion s t).
Proof.
  apply live_stopped. unfold stateAfterCompletion.
  destruct (_ =? _)%string; [destruct (_ =? _) |]; reflexivity.
Qed.

Lemma live_with_timeRemaining (t : TimerState) (r : Z) :
  0 < r -> live t -> live (with_timeRemaining r t).
Proof.
  intros Hr Hl Hrun. destruct (Hl Hrun) as (_ & e & He & Hpos).
  split; [exact Hr | exists e; split; assumption].
Qed.

Lemma startTimer_config (env : Env) (w : Service) :
  settings (startTimer env w) = settings w /\
  stored_timerSettings (startTimer env w) = stored_timerSettings w.
Proof.
  open_state w env; service_crush; split; reflexivity.
Qed.

Lemma pauseTimer_config (env : Env) (w : Service) :
  settings (pauseTimer env w) = settings w /\
  stored_timerSettings (pauseTimer env w) = stored_timerSettings w.
Proof.
  open_state w env; service_crush; split; reflexivity.
Qed.

Lemma resetTimer_config (env : Env) (w : Service) :
  settings (resetTimer env w) = settings w /\
  stored_timerSettings (resetTimer env w) = stored_timerSettings w.
Proof.
  open_state w env; service_crush; split; reflexivity.
Qed.

Lemma onTimerComplete_config (env : Env) (w : Service) :
  settings (onTimerComplete env w) = settings w /\
  stored_timerSettings (onTimerComplete env w) = stored_timerSettings w.
Proof.
  open_state w env; service_crush; split; reflexivity.
Qed.

Lemma loaded_config (env : Env) (host : Service) :
  let loaded := loadSettings env (loadState env (construct host)) in
  (settings loaded = default_settings \/
   stored_timerSettings host = Some (settings loaded)) /\
  stored_timerSettings loaded = stored_timerSettings host /\
  (timerState loaded = default_timerState \/
   stored_timerState host = Some (timerState loaded)).
Proof.
  destruct host as [ts s ty m a st ss sh lh ef]; destruct env as [n sf lf].
  service_eval.
  destruct lf, sf, st, ss; repeat split; auto.
Qed.

Lemma well_configured_same (w w' : Service) :
  well_configured w ->
  settings w' = settings w ->
  stored_timerSettings w' = stored_timerSettings w ->
  everywhere live w' ->
  well_configured w'.
Proof.
  intros (Hs & Hss & _) Es Ess Hl. unfold well_configured.
  rewrite Es, Ess. split; [exact Hs | split; [exact Hss | exact Hl]].
Qed.

(** A completion ends stopped, so it needs nothing of the timer state it
    starts from. *)
Lemma well_configured_onTimerComplete (env : Env) (w : Service) :
  valid_settings (settings w) ->
  (forall s, stored_timerSettings w = Some s -> valid_settings s) ->
  (forall t, stored_timerState w = Some t -> live t) ->
  well_configured (onTimerComplete env w).
Proof.
  intros Hs Hss Hls. destruct (onTimerComplete_config env w) as [Es Ess].
  unfold well_configured. rewrite Es, Ess.
  split; [exact Hs | split; [exact Hss |]].
  assert (Hl : live (timerState (onTimerComplete env w))).
  { rewrite onTimerComplete_closed_form. apply live_stateAfterCompletion. }
  split; [exact Hl |].
  intros t. rewrite onTimerComplete_stored.
  destruct (localFails env); [apply Hls |].
  intros Heq. injection Heq as <-. exact Hl.
Qed.

Lemma well_configured_startTimer (env : Env) (w : Service) :
  0 < now env -> well_configured w -> well_configured (startTimer env w).
Proof.
  intros Hn H. destruct (startTimer_config env w) as [Es Ess].
  apply (well_configured_same w); [exact H | exact Es | exact Ess |].
  destruct H as (Hs & Hss & Hl).
  apply (everywhere_intro live w); [exact Hl | |].
  - rewrite startTimer_timerState. cbv zeta.
    set (r := if timeRemaining (timerState w) <=? 0
              then getCurrentPhaseDuration w
              else timeRemaining (timerState w)).
    assert (Hr : 0 < r).
    { unfold r. destruct (Z.leb_spec (timeRemaining (timerState w)) 0).
      - apply getCurrentPhaseDuration_pos, Hs.
      - assumption. }
    intros _. cbn [timeRemaining endTime].
    split; [exact Hr |]. exists (now env + r * 1000). split; [reflexivity | lia].
  - rewrite startTimer_stored. destruct (localFails env); auto.
Qed.

Lemma well_configured_stopped (w w' : Service) :
  well_configured w ->
  settings w' = settings w ->
  stored_timerSettings w' = stored_timerSettings w ->
  isRunning (timerState w') = false ->
  (stored_timerState w' = stored_timerState w \/
   stored_timerState w' = Some (timerState w')) ->
  well_configured w'.
Proof.
  intros H Es Ess Hrun Hst.
  apply (well_configured_same w); [exact H | exact Es | exact Ess |].
  destruct H as (_ & _ & Hl).
  apply (everywhere_intro live w); [exact Hl | | exact Hst].
  apply live_stopped; exact Hrun.
Qed.

Lemma well_configured_startService (env : Env) (host : Service) :
  valid_settings default_settings ->
  well_configured host -> well_configured (startService env host).
Proof.
  intros Hd (Hs & Hss & Hl & Hls).
  set (loaded := loadSettings env (loadState env (construct host))).
  destruct (loaded_config env host) as (Hcs & Hcss & Hct). fold loaded in Hcs, Hcss, Hct.
  destruct (loaded_frame env host) as (_ & _ & Hst & _). fold loaded in Hst.
  assert (Hloaded : well_configured loaded).
  { split; [| split; [| split]].
    - destruct Hcs as [-> | Hc]; [exact Hd | apply Hss; exact Hc].
    - rewrite Hcss. exact Hss.
    - destruct Hct as [-> | Hc]; [apply live_stopped; reflexivity | apply Hls; exact Hc].
    - rewrite Hst. exact Hls. }
  assert (Hr : well_configured (restoreTimer env loaded)).
  { destruct (restoreTimer_cases env loaded)
      as [Heq | [Heq | [r (Hpos & H1 & H2 & H3 & H4 & _)]]].
    - rewrite Heq; exact Hloaded.
    - rewrite Heq. destruct Hloaded as (L1 & L2 & _ & L4).
      apply well_configured_onTimerComplete; assumption.
    - apply (well_configured_same loaded); [exact Hloaded | exact H3 | exact H4 |].
      destruct Hloaded as (_ & _ & L3).
      apply (everywhere_intro live loaded); [exact L3 | | left; exact H2].
      rewrite H1. apply live_with_timeRemaining; [exact Hpos | exact (proj1 L3)]. }
  apply (well_configured_same (restoreTimer env loaded));
    [exact Hr | reflexivity | reflexivity |].
  destruct Hr as (_ & _ & R3).
  apply (everywhere_same live (restoreTimer env loaded));
    [exact R3 | reflexivity | reflexivity].
Qed.

Lemma well_configured_step (env : Env) (ev : Event) (w : Service) :
  0 < now env -> valid_event ev ->
  well_configured w -> well_configured (step env ev w).
Proof.
  intros Hn Hev H. pose proof H as (Hs & Hss & Hl & Hls).
  destruct ev as [m | | |]; cbn [step].
  - destruct m as [| p | | | | p | | | | t | t]; cbn [handleMessage fst];
      try exact H.
    + (* START_TIMER *)
      apply well_configured_startTimer; [exact Hn |].
      split; [| split; [exact Hss | split; [exact Hl | exact Hls]]].
      apply merge_settings_valid; [exact Hs | exact Hev].
    + destruct (pauseTimer_config env w) as [Es Ess].
      apply (well_configured_stopped w); [exact H | exact Es | exact Ess | |].
      * rewrite pauseTimer_timerState. reflexivity.
      * rewrite pauseTimer_stored. destruct (localFails env); auto.
    + unfold skipPhase. apply well_configured_onTimerComplete; assumption.
    + destruct (resetTimer_config env w) as [Es Ess].
      apply (well_configured_stopped w); [exact H | exact Es | exact Ess | |].
      * rewrite resetTimer_timerState. reflexivity.
      * rewrite resetTimer_stored. destruct (localFails env); auto.
    + (* UPDATE_SETTINGS *)
      assert (Hm : valid_settings (merge_settings (settings w) p))
        by (apply merge_settings_valid; [exact Hs | exact Hev]).
      unfold saveSettings. destruct (syncFails env).
      * split; [exact Hm | split; [exact Hss | split; [exact Hl | exact Hls]]].
      * split; [exact Hm | split; [| split; [exact Hl | exact Hls]]].
        intros s Heq. injection Heq as <-. exact Hm.
    + unfold clearHistory.
      destruct (syncFails env); [exact H |].
      destruct (localFails env); exact H.
  - apply well_configured_onTimerComplete; assumption.
  - destruct (updateTimeRemaining_cases env w)
      as [Heq | (r & w1 & H1 & H2 & H3 & H4 & _ & _ & [[Heq Hpos] | Heq])].
    + rewrite Heq; exact H.
    + rewrite Heq.
      apply (well_configured_same w); [exact H | exact H3 | exact H4 |].
      apply (everywhere_intro live w); [split; assumption | | left; exact H2].
      rewrite H1. apply live_with_timeRemaining; [exact Hpos | exact Hl].
    + rewrite Heq. apply well_configured_onTimerComplete.
      * rewrite H3. exact Hs.
      * rewrite H4. exact Hss.
      * rewrite H2. exact Hls.
  - apply well_configured_startService; [| exact H].
    unfold valid_settings, default_settings; cbn; lia.
Qed.

(** In a run with validated input the settings stay positive, and a running
    timer, in memory or in storage, has time remaining and a deadline past
    the epoch: the deadline passes the truthiness test of the poll and of
    the recovery. *)
Lemma reachable_valid_well_configured (w : Service) :
  reachable_valid w -> well_configured w.
Proof.
  induction 1 as [env Hn | env ev w Hn Hev Hr IH].
  - apply well_configured_startService.
    + unfold valid_settings, default_settings; cbn; lia.
    + split; [| split; [| split]].
      * unfold valid_settings; cbn; lia.
      * intros s Heq; discriminate Heq.
      * apply live_stopped; reflexivity.
      * intros t Heq; discriminate Heq.
  - apply well_configured_step; assumption.
Qed.

Lemma running_has_time_remaining (w : Service) :
  reachable_valid w ->
  isRunning (timerState w) = true ->
  0 < timeRemaining (timerState w) /\
  truthy_number (endTime (timerState w)) = true.
Proof.
  intros Hr Hrun.
  destruct (reachable_valid_well_configured w Hr) as (_ & _ & Hl & _).
  destruct (Hl Hrun) as (Hpos & e & He & Hepos).
  split; [exact Hpos |].
  rewrite He. unfold truthy_number.
  destruct (Z.eqb_spec e 0); [lia | reflexivity].
Qed.

Lemma stored_running_has_deadline (w : Service) (saved : TimerState) :
  reachable_valid w ->
  stored_timerState w = Some saved ->
  isRunning saved = true ->
  exists e, endTime saved = Some e /\ e <> 0.
Proof.
  intros Hr Hst Hrun.
  destruct (reachable_valid_well_configured w Hr) as (_ & _ & _ & Hls).
  destruct (Hls saved Hst Hrun) as (_ & e & He & Hepos).
  exists e. split; [exact He | lia].
Qed.

(** C3, in the form that holds of the code.  The guard on [running] is at
    the callers that turn an elapsed deadline into a completion, the
    one-second poll and the recovery at start-up; [onTimerComplete] has
    none, and a skip moves a stopped timer on to the next phase.  Once a
    completion has run the timer is stopped with no deadline, so whatever
    the clock shows a later poll leaves the state, the history and
    everything else exactly as they are; and when the completion has
    saved its state, a later start-up of the worker loads a stopped timer
    and completes nothing: no notification, no record, and, the state
    being readable, the timer state the completion left. *)
Theorem C3_poll_after_completion_is_noop (env env' : Env) (w : Service) :
  let w1 := onTimerComplete env w in
  isRunning (timerState w1) = false /\
  endTime (timerState w1) = None /\
  updateTimeRemaining env' w1 = w1 /\
  restoreTimer env' w1 = w1 /\
  (localFails env = false ->
     let w2 := startService env' w1 in
     completed w2 = completed w1 /\
     sync_history w2 = sync_history w1 /\
     local_history w2 = local_history w1 /\
     isRunning (timerState w2) = false /\
     (localFails env' = false -> timerState w2 = timerState w1)) /\
  timerState (skipPhase env' w1) =
    stateAfterCompletion (settings w1) (timerState w1).
Proof.
  cbv zeta.
  destruct (onTimerComplete_stopped env w) as [Hr He].
  set (w1 := onTimerComplete env w) in *.
  split; [exact Hr |]. split; [exact He |].
  split; [| split; [| split]].
  - unfold updateTimeRemaining. rewrite Hr. reflexivity.
  - unfold restoreTimer. rewrite Hr. reflexivity.
  - intros Hl.
    assert (Hst : stored_timerState w1 = Some (timerState w1)).
    { unfold w1. rewrite onTimerComplete_stored, Hl. reflexivity. }
    set (loaded := loadSettings env' (loadState env' (construct w1))).
    destruct (loaded_config env' w1) as (_ & _ & Hct). fold loaded in Hct.
    destruct (loaded_frame env' w1) as (Fe & _ & _ & Fs & Fl).
    fold loaded in Fe, Fs, Fl.
    assert (Hstop : isRunning (timerState loaded) = false).
    { destruct Hct as [-> | Hc]; [reflexivity |].
      rewrite Hst in Hc. injection Hc as <-. exact Hr. }
    assert (Hrest : restoreTimer env' loaded = loaded).
    { unfold restoreTimer. rewrite Hstop. reflexivity. }
    assert (Hstart : startService env' w1 = updateIcon loaded).
    { unfold startService, init. cbv zeta. fold loaded.
      rewrite Hrest. reflexivity. }
    rewrite Hstart.
    split; [| split; [| split; [| split]]].
    + unfold completed, updateIcon, emit; cbn [effects].
      rewrite filter_app, length_app, Fe.
      cbn [filter is_notification List.length]. lia.
    + exact Fs.
    + exact Fl.
    + exact Hstop.
    + intros Hl'.
      change (timerState (updateIcon loaded)) with (timerState loaded).
      apply loaded_timerState; assumption.
  - rewrite skipPhase_timerState. apply onTimerComplete_closed_form.
Qed.

(** C1. Recovery at start-up.  When the stored timer state is running with
    a deadline set (the test [isRunning && endTime] of [init]: a timestamp,
    and not 0, as is every deadline stored in a run with validated
    input), the service computes
    [max 0 (floor ((endTime - now) / 1000))]; a positive value becomes the
    remaining time and the alarm is armed again for that many seconds,
    with no completion; at zero the completion runs once and the timer is
    stopped. *)
Theorem C1_recovery_on_startup
  (env : Env) (host : Service) (saved : TimerState) (e : Z) :
  stored_timerState host = Some saved ->
  localFails env = false ->
  isRunning saved = true ->
  endTime saved = Some e ->
  e <> 0 ->
  let left := Z.max 0 ((e - now env) / 1000) in
  let loaded := loadSettings env (loadState env (construct host)) in
  let w := startService env host in
  timerState loaded = saved /\
  (0 < left ->
     restoreTimer env loaded = startAlarm left (upd (with_timeRemaining left) loaded) /\
     timerState w = with_timeRemaining left saved /\
     alarm w = Some left /\
     completed w = completed host) /\
  (left = 0 ->
     restoreTimer env loaded = onTimerComplete env loaded /\
     isRunning (timerState w) = false /\
     endTime (timerState w) = None /\
     completed w = S (completed host)).
Proof.
  intros Hst Hlf Hrun Hend Hnz left loaded w.
  assert (Hloaded : timerState loaded = saved)
    by (apply loaded_timerState; assumption).
  assert (Hcnt : completed loaded = completed host).
  { unfold completed. destruct (loaded_frame env host) as [He _].
    fold loaded in He. rewrite He. reflexivity. }
  assert (Hguard : isRunning (timerState loaded)
                   && truthy_number (endTime (timerState loaded)) = true).
  { rewrite Hloaded, Hrun, Hend. unfold truthy_number.
    apply Z.eqb_neq in Hnz. rewrite Hnz. reflexivity. }
  split; [exact Hloaded |].
  assert (Hw : w = updateIcon (restoreTimer env loaded)) by reflexivity.
  split.
  - intros Hpos.
    assert (Hr : restoreTimer env loaded =
                 startAlarm left (upd (with_timeRemaining left) loaded)).
    { unfold restoreTimer. rewrite Hguard, Hloaded, Hend.
      unfold timeLeft. fold left.
      apply Z.ltb_lt in Hpos. rewrite Hpos. reflexivity. }
    split; [exact Hr |].
    rewrite Hw, Hr.
    split; [| split].
    + change (timerState (updateIcon (startAlarm left (upd (with_timeRemaining left) loaded))))
        with (with_timeRemaining left (timerState loaded)).
      rewrite Hloaded. reflexivity.
    + reflexivity.
    + rewrite <- Hcnt. unfold completed.
      change (effects (updateIcon (startAlarm left (upd (with_timeRemaining left) loaded))))
        with (effects loaded ++
              [IconUpdate (with_timeRemaining left (timerState loaded))]).
      rewrite filter_app, length_app. cbn [filter is_notification List.length].
      lia.
  - intros Hzero.
    assert (Hr : restoreTimer env loaded = onTimerComplete env loaded).
    { unfold restoreTimer. rewrite Hguard, Hloaded, Hend.
      unfold timeLeft. fold left. rewrite Hzero. reflexivity. }
    split; [exact Hr |].
    rewrite Hw, Hr.
    destruct (onTimerComplete_stopped env loaded) as [H1 H2].
    split; [exact H1 | split; [exact H2 |]].
    rewrite <- Hcnt, <- (onTimerComplete_completed env loaded).
    unfold completed.
    change (effects (updateIcon (onTimerComplete env loaded)))
      with (effects (onTimerComplete env loaded) ++
            [IconUpdate (timerState (onTimerComplete env loaded))]).
    rewrite filter_app, length_app. cbn [filter is_notification List.length].
    lia.
Qed.

(** C8.  A completion appends a record to the history exactly when the
    phase being completed is work: to the synced store, or to the local
    store when the synced one fails (to neither when both fail); from any
    other phase both stores stay as they are.  Appending keeps what the
    log holds: the new log is the old one followed by the record, the
    whole of it below the bound of 1000 and its last 1000 otherwise.  The
    record's start time is rendered from the start marker, or from [now]
    minus the full work duration when there is no marker; its duration is
    the work duration of the current settings and its type the current
    task type. *)
Theorem C8_record_on_work_completion (env : Env) (w : Service) :
  let w' := onTimerComplete env w in
  let r := recordOf env w in
  (currentPhase (timerState w) = "work"%string ->
     sync_history w' =
       (if syncFails env then sync_history w
        else Some (pushLimited (sync_history w) r)) /\
     local_history w' =
       (if syncFails env && negb (localFails env)
        then Some (pushLimited (local_history w) r)
        else local_history w) /\
     (exists kept, pushLimited (sync_history w) r = kept ++ [r]) /\
     (exists kept, pushLimited (local_history w) r = kept ++ [r]) /\
     sessionStartTime w' = None /\
     (forall h,
        history_of h ++ [r] =
          firstn (List.length (history_of h ++ [r]) - 1000) (history_of h ++ [r])
          ++ pushLimited h r /\
        ((List.length (history_of h) < 1000)%nat ->
           pushLimited h r = history_of h ++ [r]) /\
        (List.length (history_of h) = 1000%nat ->
           pushLimited h r = tl (history_of h) ++ [r])) /\
     (syncFails env = false ->
      (List.length (history_of (sync_history w)) < 1000)%nat ->
        history_of (sync_history w') = history_of (sync_history w) ++ [r]) /\
     (syncFails env = true -> localFails env = false ->
      (List.length (history_of (local_history w)) < 1000)%nat ->
        history_of (local_history w') = history_of (local_history w) ++ [r])) /\
  (currentPhase (timerState w) <> "work"%string ->
     sync_history w' = sync_history w /\
     local_history w' = local_history w /\
     sessionStartTime w' = sessionStartTime w) /\
  startTime r =
    clockHHMM match sessionStartTime w with
              | Some marker => marker
              | None => now env - workDuration (settings w) * 60 * 1000
              end /\
  duration r = workDuration (settings w) /\
  type r = or_default (currentTaskType w) defaultTaskType /\
  date r = isoDay (now env) /\
  id r = now env.
Proof.
  intros w' r.
  destruct (onTimerComplete_history env w) as (Hs & Hl & Hm).
  fold w' in Hs, Hl, Hm. fold r in Hs, Hl.
  assert (Hkeep : forall h,
            (List.length (history_of h) < 1000)%nat ->
            pushLimited h r = history_of h ++ [r]).
  { intros h Hlt. unfold pushLimited. apply slice_last_short.
    rewrite length_app. cbn [List.length]. lia. }
  split; [| split].
  - intros Hp. rewrite Hp in Hs, Hl, Hm.
    change ("work" =? "work")%string with true in Hs, Hl, Hm.
    split; [rewrite Hs; destruct (syncFails env); reflexivity |].
    split; [rewrite Hl; reflexivity |].
    split; [apply pushLimited_last |].
    split; [apply pushLimited_last |].
    split; [rewrite Hm; reflexivity |].
    split; [| split].
    + intros h. split; [| split].
      * unfold pushLimited. apply slice_last_suffix.
      * apply Hkeep.
      * intros Heq. unfold pushLimited.
        apply slice_last_push_full; [lia | exact Heq].
    + intros Hsf Hlt. rewrite Hs, Hsf. cbn [andb negb history_of].
      apply Hkeep. exact Hlt.
    + intros Hsf Hlf Hlt. rewrite Hl, Hsf, Hlf. cbn [andb negb history_of].
      apply Hkeep. exact Hlt.
  - intros Hp. apply String.eqb_neq in Hp. rewrite Hp in Hs, Hl, Hm.
    rewrite Hs, Hl, Hm. repeat split.
  - repeat split.
Qed.

(** ** Settings *)

Lemma startTimer_alarm (env : Env) (w : Service) :
  alarm (startTimer env w) = Some (timeRemaining (timerState (startTimer env w))).
Proof.
  open_state w env; service_crush; reflexivity.
Qed.

(** C9.  Updating the settings writes the settings (and their stored copy)
    and nothing else: the timer state, with its remaining time and
    deadline, the alarm, the start marker, the history and the outgoing
    messages are as before.  The new durations are read the next time a
    full phase duration is looked up: by a completion, by a reset, or by a
    start from zero; a start with time remaining keeps that time. *)
Theorem C9_update_settings_frame (env : Env) (p : SettingsPatch) (w : Service) :
  let w' := fst (handleMessage env (UPDATE_SETTINGS p) w) in
  snd (handleMessage env (UPDATE_SETTINGS p) w) = ResponseSuccess /\
  timerState w' = timerState w /\
  settings w' = merge_settings (settings w) p /\
  currentTaskType w' = currentTaskType w /\
  sessionStartTime w' = sessionStartTime w /\
  alarm w' = alarm w /\
  stored_timerState w' = stored_timerState w /\
  sync_history w' = sync_history w /\
  local_history w' = local_history w /\
  effects w' = effects w /\
  (forall env',
     timerState (onTimerComplete env' w') =
       stateAfterCompletion (merge_settings (settings w) p) (timerState w) /\
     timeRemaining (timerState (resetTimer env' w')) =
       workDuration (merge_settings (settings w) p) * 60 /\
     (0 < timeRemaining (timerState w) ->
        timeRemaining (timerState (startTimer env' w')) =
          timeRemaining (timerState w)) /\
     (timeRemaining (timerState w) <= 0 ->
        timeRemaining (timerState (startTimer env' w')) =
          getCurrentPhaseDuration w')).
Proof.
  cbn [handleMessage fst snd].
  assert (Hframe :
    forall w0, saveSettings env w0 =
               if syncFails env then w0
               else set_stored_timerSettings (Some (settings w0)) w0)
    by reflexivity.
  rewrite Hframe.
  destruct (syncFails env);
    (repeat (split; [reflexivity |]);
     intros env'; split; [| split; [| split]];
     [ rewrite onTimerComplete_closed_form; reflexivity
     | rewrite resetTimer_timerState; reflexivity
     | intros Hpos; rewrite startTimer_timerState;
       cbn [timeRemaining set_stored_timerSettings set_settings timerState];
       apply Z.leb_gt in Hpos; rewrite Hpos; reflexivity
     | intros Hle; rewrite startTimer_timerState;
       cbn [timeRemaining set_stored_timerSettings set_settings timerState];
       apply Z.leb_le in Hle; rewrite Hle; reflexivity ]).
Qed.

(** C10.  A start command that arrives while the timer is running is
    answered with success.  A running timer has time remaining (in every
    run with validated input), and then phase, cycle and remaining time
    stay, the deadline becomes [now + timeRemaining * 1000] and the alarm
    is armed again for the remaining time.  If the remaining time was last
    reconciled from the old deadline at instant [t0], the new deadline is
    later than the old one by the time elapsed since [t0], up to the
    second lost in rounding. *)
Theorem C10_start_while_running
  (env : Env) (p : SettingsPatch) (w : Service) :
  isRunning (timerState w) = true ->
  let w' := fst (handleMessage env (START_TIMER p) w) in
  snd (handleMessage env (START_TIMER p) w) = ResponseSuccess /\
  isRunning (timerState w') = true /\
  currentPhase (timerState w') = currentPhase (timerState w) /\
  currentCycle (timerState w') = currentCycle (timerState w) /\
  (reachable_valid w -> 0 < timeRemaining (timerState w)) /\
  (0 < timeRemaining (timerState w) ->
     timeRemaining (timerState w') = timeRemaining (timerState w) /\
     endTime (timerState w') =
       Some (now env + timeRemaining (timerState w) * 1000) /\
     alarm w' = Some (timeRemaining (timerState w)) /\
     (forall e t0,
        endTime (timerState w) = Some e ->
        timeRemaining (timerState w) = timeLeft e t0 ->
        now env - t0 - 1000
          < (now env + timeRemaining (timerState w) * 1000) - e
          <= now env - t0)).
Proof.
  intros Hrun. cbn [handleMessage fst snd].
  set (w1 := set_settings (merge_settings (settings w) p) w).
  split; [reflexivity |].
  rewrite startTimer_alarm, startTimer_timerState.
  change (timerState w1) with (timerState w).
  do 3 (split; [reflexivity |]).
  split.
  - intros Hr. exact (proj1 (running_has_time_remaining w Hr Hrun)).
  - intros Hpos. cbv zeta. cbn [timeRemaining endTime].
    pose proof Hpos as Hgt. apply Z.leb_gt in Hgt. rewrite Hgt.
    do 3 (split; [reflexivity |]).
    intros e t0 _ Hleft. unfold timeLeft in Hleft.
    rewrite Hleft in Hpos |- *.
    assert (Hq : 0 < (e - t0) / 1000) by lia.
    rewrite Z.max_r by lia.
    pose proof (Z.div_mod (e - t0) 1000 ltac:(lia)) as Hdm.
    pose proof (Z.mod_pos_bound (e - t0) 1000 ltac:(lia)) as Hb.
    lia.
Qed.

(** ** Start, pause, the poll and the restart together *)

Lemma startTimer_marker (env : Env) (w : Service) :
  sessionStartTime (startTimer env w) =
  if (currentPhase (timerState w) =? "work")%string
  then Some (now env)
  else sessionStartTime w.
Proof.
  open_state w env; service_crush; reflexivity.
Qed.

Lemma pauseTimer_alarm (env : Env) (w : Service) :
  alarm (pauseTimer env w) = None.
Proof.
  open_state w env; service_crush; reflexivity.
Qed.

Lemma onTimerComplete_alarm (env : Env) (w : Service) :
  alarm (onTimerComplete env w) = alarm w.
Proof.
  open_state w env; service_crush; reflexivity.
Qed.

Lemma onTimerComplete_memory (env : Env) (w : Service) :
  currentTaskType (onTimerComplete env w) = currentTaskType w.
Proof.
  open_state w env; service_crush; reflexivity.
Qed.

Lemma with_timeRemaining_same (t : TimerState) :
  with_timeRemaining (timeRemaining t) t = t.
Proof.
  destruct t; reflexivity.
Qed.

(** The poll on a running timer whose deadline is at least a second away:
    only the remaining time is refreshed. *)
Lemma updateTimeRemaining_refresh (env : Env) (w : Service) (e : Z) :
  isRunning (timerState w) = true ->
  endTime (timerState w) = Some e ->
  e <> 0 ->
  0 < timeLeft e (now env) ->
  let w' := updateTimeRemaining env w in
  timerState w' = with_timeRemaining (timeLeft e (now env)) (timerState w) /\
  alarm w' = alarm w /\
  completed w' = completed w.
Proof.
  intros Hrun He Hnz Hpos. cbv zeta. unfold updateTimeRemaining.
  rewrite Hrun, He. unfold truthy_number.
  apply Z.eqb_neq in Hnz. rewrite Hnz. cbn [andb negb]. cbv zeta.
  destruct (Z.eqb_spec (timeLeft e (now env)) (timeRemaining (timerState w)))
    as [Heq | Hne]; cbn [negb].
  - rewrite Heq, with_timeRemaining_same. repeat split.
  - apply Z.leb_gt in Hpos. rewrite Hpos.
    split; [reflexivity | split; [reflexivity |]].
    unfold completed, broadcastUpdate, updateIcon, emit, upd, set_timerState;
      cbn [effects].
    rewrite !filter_app, !length_app. cbn [filter is_notification List.length].
    lia.
Qed.

(** The poll on a running timer with less than a second to the deadline. *)
Lemma updateTimeRemaining_expired (env : Env) (w : Service) (e : Z) :
  isRunning (timerState w) = true ->
  endTime (timerState w) = Some e ->
  e <> 0 ->
  timeLeft e (now env) = 0 ->
  timeRemaining (timerState w) <> 0 ->
  updateTimeRemaining env w =
  onTimerComplete env
    (broadcastUpdate (updateIcon (upd (with_timeRemaining 0) w))).
Proof.
  intros Hrun He Hnz Hzero Htr. unfold updateTimeRemaining.
  rewrite Hrun, He. unfold truthy_number.
  apply Z.eqb_neq in Hnz. rewrite Hnz. cbn [andb negb]. cbv zeta.
  rewrite Hzero.
  destruct (Z.eqb_spec 0 (timeRemaining (timerState w))) as [Heq | Hne];
    [congruence | reflexivity].
Qed.

Lemma restoreTimer_running (env : Env) (w : Service) (e : Z) :
  isRunning (timerState w) = true ->
  endTime (timerState w) = Some e ->
  e <> 0 ->
  restoreTimer env w =
  if 0 <? timeLeft e (now env)
  then startAlarm (timeLeft e (now env))
         (upd (with_timeRemaining (timeLeft e (now env))) w)
  else onTimerComplete env w.
Proof.
  intros Hrun He Hnz. unfold restoreTimer.
  rewrite Hrun, He. unfold truthy_number.
  apply Z.eqb_neq in Hnz. rewrite Hnz. reflexivity.
Qed.

(** Seconds left [d] milliseconds after a start with [r] seconds. *)
Lemma timeLeft_after (t0 r d : Z) :
  0 <= d ->
  timeLeft (t0 + r * 1000) (t0 + d) = Z.max 0 (r - (d + 999) / 1000).
Proof.
  intros Hd. unfold timeLeft. f_equal.
  replace (t0 + r * 1000 - (t0 + d)) with (r * 1000 - d) by lia.
  pose proof (Z.div_mod (r * 1000 - d) 1000 ltac:(lia)) as H1.
  pose proof (Z.mod_pos_bound (r * 1000 - d) 1000 ltac:(lia)) as B1.
  pose proof (Z.div_mod (d + 999) 1000 ltac:(lia)) as H2.
  pose proof (Z.mod_pos_bound (d + 999) 1000 ltac:(lia)) as B2.
  lia.
Qed.

(** X1.  Start in the work phase sets the session-start marker to the
    moment of the start, whatever marker was there; in a break it leaves
    the marker alone.  So after a reset the next start begins a first work
    phase of full length whose record will carry the new start time. *)
Theorem start_sets_marker_in_work (env env' : Env) (w : Service) :
  (currentPhase (timerState w) = "work"%string ->
     sessionStartTime (startTimer env w) = Some (now env)) /\
  (currentPhase (timerState w) <> "work"%string ->
     sessionStartTime (startTimer env w) = sessionStartTime w) /\
  (0 < workDuration (settings w) ->
     timerState (startTimer env (resetTimer env' w)) =
       mkTimerState true "work" 1 (workDuration (settings w) * 60)
         (Some (now env + workDuration (settings w) * 60 * 1000)) /\
     sessionStartTime (startTimer env (resetTimer env' w)) = Some (now env)).
Proof.
  split; [| split].
  - intros Hp. rewrite startTimer_marker, Hp. reflexivity.
  - intros Hp. rewrite startTimer_marker.
    apply String.eqb_neq in Hp. rewrite Hp. reflexivity.
  - intros Hpos.
    rewrite startTimer_marker, startTimer_timerState, resetTimer_timerState.
    cbn [timeRemaining currentPhase currentCycle].
    assert (Hgt : (workDuration (settings w) * 60 <=? 0) = false)
      by (apply Z.leb_gt; lia).
    rewrite Hgt. split; reflexivity.
Qed.

(** X2.  Pause does not reconcile the remaining time: a start followed by
    a pause, however much later, gives back the remaining time the start
    found, stopped and without deadline or alarm; the time between the two
    is not deducted unless a poll ran in between. *)
Theorem start_then_pause_keeps_time (env1 env2 : Env) (w : Service) :
  0 < timeRemaining (timerState w) ->
  timerState (pauseTimer env2 (startTimer env1 w)) =
    with_endTime None (with_isRunning false (timerState w)) /\
  alarm (pauseTimer env2 (startTimer env1 w)) = None /\
  (isRunning (timerState w) = false -> endTime (timerState w) = None ->
   timerState (pauseTimer env2 (startTimer env1 w)) = timerState w).
Proof.
  intros Hpos.
  assert (Ht : timerState (pauseTimer env2 (startTimer env1 w)) =
               with_endTime None (with_isRunning false (timerState w))).
  { rewrite pauseTimer_timerState, startTimer_timerState.
    apply Z.leb_gt in Hpos. rewrite Hpos. reflexivity. }
  split; [exact Ht |]. split; [apply pauseTimer_alarm |].
  intros Hr He. rewrite Ht.
  destruct (timerState w) as [r p c t e]; cbn in Hr, He; subst r e.
  reflexivity.
Qed.

(** X3.  The poll after a start: [d] milliseconds after a start that found
    [r] seconds, with at least a full second still to go, the remaining
    time is [r] minus [d] rounded up to whole seconds; the timer keeps
    running towards the same deadline, the alarm stays and nothing
    completes. *)
Theorem poll_after_start (env0 env1 : Env) (w : Service) :
  let r := timeRemaining (timerState w) in
  let d := now env1 - now env0 in
  let w1 := startTimer env0 w in
  0 < r -> 0 <= now env0 -> 0 <= d <= (r - 1) * 1000 ->
  timerState (updateTimeRemaining env1 w1) =
    with_timeRemaining (r - (d + 999) / 1000) (timerState w1) /\
  alarm (updateTimeRemaining env1 w1) = Some r /\
  completed (updateTimeRemaining env1 w1) = completed w1.
Proof.
  intros r d w1 Hr Hn Hd.
  assert (Ht : timerState w1 =
               mkTimerState true (currentPhase (timerState w))
                 (currentCycle (timerState w)) r (Some (now env0 + r * 1000))).
  { unfold w1. rewrite startTimer_timerState. fold r.
    apply Z.leb_gt in Hr. rewrite Hr. reflexivity. }
  assert (Hleft : timeLeft (now env0 + r * 1000) (now env1)
                  = r - (d + 999) / 1000).
  { replace (now env1) with (now env0 + d) by (unfold d; lia).
    rewrite timeLeft_after by lia.
    pose proof (Z.div_mod (d + 999) 1000 ltac:(lia)) as H2.
    pose proof (Z.mod_pos_bound (d + 999) 1000 ltac:(lia)) as B2.
    lia. }
  assert (Hpos : 0 < timeLeft (now env0 + r * 1000) (now env1)).
  { rewrite Hleft.
    pose proof (Z.div_mod (d + 999) 1000 ltac:(lia)) as H2.
    pose proof (Z.mod_pos_bound (d + 999) 1000 ltac:(lia)) as B2.
    lia. }
  destruct (updateTimeRemaining_refresh env1 w1 (now env0 + r * 1000))
    as (H1 & H2 & H3).
  - rewrite Ht; reflexivity.
  - rewrite Ht; reflexivity.
  - lia.
  - exact Hpos.
  - split; [| split].
    + rewrite H1, Hleft. reflexivity.
    + rewrite H2. unfold w1. rewrite startTimer_alarm. fold w1.
      rewrite Ht. reflexivity.
    + exact H3.
Qed.

Lemma updateTimeRemaining_unfold (env : Env) (w : Service) :
  updateTimeRemaining env w =
  if isRunning (timerState w) && truthy_number (endTime (timerState w)) then
    match endTime (timerState w) with
    | Some e =>
        if negb (timeLeft e (now env) =? timeRemaining (timerState w)) then
          if timeLeft e (now env) <=? 0
          then onTimerComplete env
                 (broadcastUpdate
                    (updateIcon (upd (with_timeRemaining (timeLeft e (now env))) w)))
          else broadcastUpdate
                 (updateIcon (upd (with_timeRemaining (timeLeft e (now env))) w))
        else w
    | None => w
    end
  else w.
Proof.
  reflexivity.
Qed.

Lemma updateTimeRemaining_stopped (env : Env) (w : Service) :
  isRunning (timerState w) = false -> updateTimeRemaining env w = w.
Proof.
  intros H. rewrite updateTimeRemaining_unfold, H. reflexivity.
Qed.

(** X4.  The poll is idempotent: a second poll at the same instant changes
    nothing more, whether the first one refreshed the remaining time,
    completed the phase or did nothing. *)
Theorem poll_twice_same_instant (env : Env) (w : Service) :
  updateTimeRemaining env (updateTimeRemaining env w) =
  updateTimeRemaining env w.
Proof.
  rewrite (updateTimeRemaining_unfold env w).
  destruct (isRunning (timerState w) && truthy_number (endTime (timerState w)))
    eqn:Hg.
  - destruct (endTime (timerState w)) as [e |] eqn:He.
    + destruct (Z.eqb_spec (timeLeft e (now env)) (timeRemaining (timerState w)))
        as [Heq | Hne]; cbn [negb].
      * rewrite updateTimeRemaining_unfold, He, Hg.
        apply Z.eqb_eq in Heq. rewrite Heq. reflexivity.
      * destruct (timeLeft e (now env) <=? 0).
        -- apply updateTimeRemaining_stopped.
           apply (proj1 (onTimerComplete_stopped env _)).
        -- rewrite updateTimeRemaining_unfold.
           change (timerState
                     (broadcastUpdate
                        (updateIcon
                           (upd (with_timeRemaining (timeLeft e (now env))) w))))
             with (with_timeRemaining (timeLeft e (now env)) (timerState w)).
           cbn [isRunning endTime timeRemaining with_timeRemaining].
           rewrite He, Hg, Z.eqb_refl. reflexivity.
    + rewrite updateTimeRemaining_unfold, He, Hg. reflexivity.
  - rewrite updateTimeRemaining_unfold, Hg. reflexivity.
Qed.

(** X5.  The poll completes the phase as soon as less than a second is left
    to the deadline, and the completion does not disarm the alarm: the
    alarm armed by the start is still there.  When it then goes off, a
    second completion runs, so a work phase that the poll has completed
    is followed by work again, one cycle on, the break passed over. *)
Theorem poll_completion_leaves_alarm
  (env env2 : Env) (w : Service) (e : Z) :
  isRunning (timerState w) = true ->
  endTime (timerState w) = Some e ->
  e <> 0 ->
  e - now env < 1000 ->
  timeRemaining (timerState w) <> 0 ->
  let w' := updateTimeRemaining env w in
  timerState w' = stateAfterCompletion (settings w) (timerState w) /\
  alarm w' = alarm w /\
  completed w' = S (completed w) /\
  timerState (step env2 AlarmFired w') =
    stateAfterCompletion (settings w)
      (stateAfterCompletion (settings w) (timerState w)) /\
  completed (step env2 AlarmFired w') = S (S (completed w)).
Proof.
  intros Hrun He Hnz Hlate Htr. cbv zeta.
  assert (Hzero : timeLeft e (now env) = 0).
  { unfold timeLeft.
    pose proof (Z.div_mod (e - now env) 1000 ltac:(lia)) as H1.
    pose proof (Z.mod_pos_bound (e - now env) 1000 ltac:(lia)) as B1.
    lia. }
  rewrite (updateTimeRemaining_expired env w e Hrun He Hnz Hzero Htr).
  set (w1 := broadcastUpdate (updateIcon (upd (with_timeRemaining 0) w))).
  assert (Ht : timerState (onTimerComplete env w1) =
               stateAfterCompletion (settings w) (timerState w)).
  { rewrite onTimerComplete_closed_form. reflexivity. }
  assert (Hc : completed (onTimerComplete env w1) = S (completed w)).
  { rewrite onTimerComplete_completed. f_equal.
    unfold completed, w1, broadcastUpdate, updateIcon, emit, upd, set_timerState;
      cbn [effects].
    rewrite !filter_app, !length_app. cbn [filter is_notification List.length].
    lia. }
  split; [exact Ht |].
  split; [rewrite onTimerComplete_alarm; reflexivity |].
  split; [exact Hc |].
  cbn [step]. split.
  - rewrite onTimerComplete_closed_form.
    change (timerState (set_alarm None (onTimerComplete env w1)))
      with (timerState (onTimerComplete env w1)).
    change (settings (set_alarm None (onTimerComplete env w1)))
      with (settings (onTimerComplete env w1)).
    rewrite Ht, onTimerComplete_settings. reflexivity.
  - rewrite onTimerComplete_completed. f_equal. exact Hc.
Qed.

(** Start-up on a host whose stored timer state is running with a
    deadline. *)
Lemma startService_running
  (env : Env) (host : Service) (saved : TimerState) (e : Z) :
  stored_timerState host = Some saved ->
  localFails env = false ->
  isRunning saved = true ->
  endTime saved = Some e ->
  e <> 0 ->
  let loaded := loadSettings env (loadState env (construct host)) in
  timerState loaded = saved /\
  startService env host =
    updateIcon
      (if 0 <? timeLeft e (now env)
       then startAlarm (timeLeft e (now env))
              (upd (with_timeRemaining (timeLeft e (now env))) loaded)
       else onTimerComplete env loaded).
Proof.
  intros Hst Hlf Hrun He Hnz loaded.
  assert (Hl : timerState loaded = saved)
    by (apply loaded_timerState; assumption).
  split; [exact Hl |].
  unfold startService, init. cbv zeta. fold loaded.
  rewrite (restoreTimer_running env loaded e); [reflexivity | | | exact Hnz].
  - rewrite Hl; exact Hrun.
  - rewrite Hl; exact He.
Qed.

Lemma completed_updateIcon (w : Service) :
  completed (updateIcon w) = completed w.
Proof.
  unfold completed, updateIcon, emit; cbn [effects].
  rewrite filter_app, length_app. cbn [filter is_notification List.length].
  lia.
Qed.

(** X6.  A worker restart after a start, both with the local storage
    working: [d] milliseconds after a start that found [r] seconds, the
    restarted service is running with [r] minus [d] rounded up to whole
    seconds and has armed the alarm for that long, with no completion, as
    long as a full second is left; later than that it completes the phase
    once and is stopped. *)
Theorem restart_after_start (env0 env1 : Env) (w : Service) :
  let r := timeRemaining (timerState w) in
  let d := now env1 - now env0 in
  let w1 := startTimer env0 w in
  let w2 := startService env1 w1 in
  0 < r -> 0 <= now env0 -> 0 <= d ->
  localFails env0 = false -> localFails env1 = false ->
  (d <= (r - 1) * 1000 ->
     timerState w2 = with_timeRemaining (r - (d + 999) / 1000) (timerState w1) /\
     alarm w2 = Some (r - (d + 999) / 1000) /\
     completed w2 = completed w1) /\
  ((r - 1) * 1000 < d ->
     isRunning (timerState w2) = false /\
     completed w2 = S (completed w1)).
Proof.
  intros r d w1 w2 Hr Hn Hd Hl0 Hl1.
  assert (Ht : timerState w1 =
               mkTimerState true (currentPhase (timerState w))
                 (currentCycle (timerState w)) r (Some (now env0 + r * 1000))).
  { unfold w1. rewrite startTimer_timerState. fold r.
    apply Z.leb_gt in Hr. rewrite Hr. reflexivity. }
  assert (Hst : stored_timerState w1 = Some (timerState w1)).
  { unfold w1. rewrite startTimer_stored, Hl0. reflexivity. }
  destruct (startService_running env1 w1 (timerState w1) (now env0 + r * 1000))
    as (Hloaded & Hstart);
    [exact Hst | exact Hl1 | rewrite Ht; reflexivity | rewrite Ht; reflexivity
    | lia |].
  set (loaded := loadSettings env1 (loadState env1 (construct w1))) in *.
  assert (Hcnt : completed loaded = completed w1).
  { unfold completed. destruct (loaded_frame env1 w1) as [He _].
    fold loaded in He. rewrite He. reflexivity. }
  assert (Hleft : timeLeft (now env0 + r * 1000) (now env1)
                  = Z.max 0 (r - (d + 999) / 1000)).
  { replace (now env1) with (now env0 + d) by (unfold d; lia).
    apply timeLeft_after. exact Hd. }
  pose proof (Z.div_mod (d + 999) 1000 ltac:(lia)) as H2.
  pose proof (Z.mod_pos_bound (d + 999) 1000 ltac:(lia)) as B2.
  fold w2 in Hstart.
  split.
  - intros Hin.
    assert (Hpos : 0 < r - (d + 999) / 1000) by lia.
    rewrite Hleft, Z.max_r in Hstart by lia.
    apply Z.ltb_lt in Hpos. rewrite Hpos in Hstart.
    rewrite Hstart. split; [| split].
    + change (timerState
                (updateIcon
                   (startAlarm (r - (d + 999) / 1000)
                      (upd (with_timeRemaining (r - (d + 999) / 1000)) loaded))))
        with (with_timeRemaining (r - (d + 999) / 1000) (timerState loaded)).
      rewrite Hloaded. reflexivity.
    + reflexivity.
    + rewrite completed_updateIcon, <- Hcnt.
      unfold completed. reflexivity.
  - intros Hout.
    assert (Hz : (0 <? timeLeft (now env0 + r * 1000) (now env1)) = false).
    { apply Z.ltb_ge. rewrite Hleft. lia. }
    rewrite Hz in Hstart. rewrite Hstart. split.
    + apply (proj1 (onTimerComplete_stopped env1 loaded)).
    + rewrite completed_updateIcon, onTimerComplete_completed, Hcnt.
      reflexivity.
Qed.

Lemma restoreTimer_memory (env : Env) (w : Service) :
  currentTaskType (restoreTimer env w) = currentTaskType w /\
  (sessionStartTime w = None -> sessionStartTime (restoreTimer env w) = None).
Proof.
  unfold restoreTimer.
  destruct (isRunning (timerState w) && truthy_number (endTime (timerState w)));
    [| split; [reflexivity | intros H; exact H]].
  destruct (endTime (timerState w)) as [e |];
    [| split; [reflexivity | intros H; exact H]].
  cbv zeta. destruct (0 <? timeLeft e (now env)).
  - split; [reflexivity | intros H; exact H].
  - split; [apply onTimerComplete_memory |].
    intros H. destruct (onTimerComplete_history env w) as (_ & _ & Hm).
    rewrite Hm, H. destruct (_ =? _)%string; reflexivity.
Qed.

Lemma restart_forgets_session_aux (env : Env) (host : Service) :
  currentTaskType (startService env host) = defaultTaskType /\
  sessionStartTime (startService env host) = None.
Proof.
  set (loaded := loadSettings env (loadState env (construct host))).
  assert (Hl : currentTaskType loaded = defaultTaskType /\
               sessionStartTime loaded = None).
  { unfold loaded.
    destruct host as [ts s ty m a st ss sh lh ef]; destruct env as [n sf lf].
    service_eval. destruct lf, sf, st, ss; split; reflexivity. }
  destruct Hl as [Hty Hm].
  destruct (restoreTimer_memory env loaded) as [R1 R2].
  split.
  - change (currentTaskType (startService env host))
      with (currentTaskType (restoreTimer env loaded)).
    rewrite R1. exact Hty.
  - change (sessionStartTime (startService env host))
      with (sessionStartTime (restoreTimer env loaded)).
    apply R2. exact Hm.
Qed.

(** X7.  The task type and the session-start marker live in memory only:
    after a start-up of the worker the task type is the default and there
    is no marker, whatever they were before.  A work phase completed
    after that is recorded under the default type, with the start time
    computed back from the completion by the work duration. *)
Theorem restart_forgets_session (env env2 : Env) (host : Service) :
  let w := startService env host in
  currentTaskType w = defaultTaskType /\
  sessionStartTime w = None /\
  type (recordOf env2 w) = defaultTaskType /\
  startTime (recordOf env2 w) =
    clockHHMM (now env2 - workDuration (settings w) * 60 * 1000).
Proof.
  cbv zeta.
  destruct (restart_forgets_session_aux env host) as [H1 H2].
  split; [exact H1 |]. split; [exact H2 |].
  unfold recordOf, buildRecord. cbn [type startTime].
  rewrite H1, H2. split; reflexivity.
Qed.

Lemma startService_settings (env : Env) (host : Service) :
  settings (startService env host) =
  if syncFails env then default_settings
  else match stored_timerSettings host with
       | Some s => s
       | None => default_settings
       end.
Proof.
  set (loaded := loadSettings env (loadState env (construct host))).
  assert (Hl : settings loaded =
               if syncFails env then default_settings
               else match stored_timerSettings host with
                    | Some s => s
                    | None => default_settings
                    end).
  { unfold loaded.
    destruct host as [ts s ty m a st ss sh lh ef]; destruct env as [n sf lf].
    service_eval. destruct lf, sf, st, ss; reflexivity. }
  change (settings (startService env host))
    with (settings (restoreTimer env loaded)).
  rewrite <- Hl.
  destruct (restoreTimer_cases env loaded)
    as [Heq | [Heq | [r (_ & _ & _ & H3 & _)]]].
  - rewrite Heq; reflexivity.
  - rewrite Heq; apply onTimerComplete_settings.
  - exact H3.
Qed.

(** X8.  Settings sent with UPDATE_SETTINGS are stored and come back after
    a restart of the worker; settings sent with START_TIMER are used but
    not stored, and so are an update's when the store rejects the write:
    after a restart the service is back to what the store holds. *)
Theorem settings_across_restart
  (env1 env2 : Env) (p : SettingsPatch) (w : Service) :
  syncFails env2 = false ->
  (syncFails env1 = false ->
     settings (startService env2 (fst (handleMessage env1 (UPDATE_SETTINGS p) w)))
     = merge_settings (settings w) p) /\
  (syncFails env1 = true ->
     settings (fst (handleMessage env1 (UPDATE_SETTINGS p) w))
       = merge_settings (settings w) p /\
     settings (startService env2 (fst (handleMessage env1 (UPDATE_SETTINGS p) w)))
       = settings (startService env2 w)) /\
  settings (fst (handleMessage env1 (START_TIMER p) w))
    = merge_settings (settings w) p /\
  settings (startService env2 (fst (handleMessage env1 (START_TIMER p) w)))
    = settings (startService env2 w).
Proof.
  intros Hs2. rewrite !startService_settings, Hs2.
  cbn [handleMessage fst]. unfold saveSettings.
  split; [| split; [| split]].
  - intros Hs1. rewrite Hs1. reflexivity.
  - intros Hs1. rewrite Hs1. split; reflexivity.
  - destruct (startTimer_config env1
                (set_settings (merge_settings (settings w) p) w)) as [Es _].
    rewrite Es. reflexivity.
  - destruct (startTimer_config env1
                (set_settings (merge_settings (settings w) p) w)) as [_ Ess].
    rewrite Ess. reflexivity.
Qed.

(** ** Reading the history *)

Lemma getHistory_sync (env : Env) (w : Service) (l : list PomodoroRecord) :
  syncFails env = false ->
  sync_history w = Some l ->
  l <> [] ->
  getHistory env w = l.
Proof.
  intros Hs Hh Hl. unfold getHistory. rewrite Hs, Hh.
  destruct l as [| r l']; [congruence | reflexivity].
Qed.

Lemma getHistory_local (env : Env) (w : Service) :
  syncFails env = false ->
  localFails env = false ->
  history_of (sync_history w) = [] ->
  getHistory env w = history_of (local_history w).
Proof.
  intros Hs Hl Hh. unfold getHistory. rewrite Hs, Hl.
  destruct (sync_history w) as [[| r l] |]; cbn in Hh;
    [reflexivity | discriminate Hh | reflexivity].
Qed.

Lemma pushLimited_nonempty (h : option (list PomodoroRecord)) (r : PomodoroRecord) :
  pushLimited h r <> [].
Proof.
  destruct (pushLimited_last h r) as [kept Hk]. rewrite Hk.
  destruct kept; discriminate.
Qed.

(** X9.  A completed work phase shows at once: with the synced store
    working, GET_HISTORY after the completion answers with the synced log,
    whose last record is the one just made. *)
Theorem history_shows_new_record (env env' : Env) (w : Service) :
  currentPhase (timerState w) = "work"%string ->
  syncFails env = false ->
  syncFails env' = false ->
  let w' := onTimerComplete env w in
  snd (handleMessage env' GET_HISTORY w') =
    ResponseHistory (pushLimited (sync_history w) (recordOf env w)) /\
  exists earlier,
    getHistory env' w' = earlier ++ [recordOf env w].
Proof.
  intros Hp Hs Hs' w'.
  destruct (onTimerComplete_history env w) as (H1 & _).
  fold w' in H1. rewrite Hp, Hs in H1.
  change ("work" =? "work")%string with true in H1. cbn [andb negb] in H1.
  assert (Hg : getHistory env' w' =
               pushLimited (sync_history w) (recordOf env w)).
  { apply getHistory_sync; [exact Hs' | exact H1 | apply pushLimited_nonempty]. }
  split.
  - cbn [handleMessage snd]. rewrite Hg. reflexivity.
  - destruct (pushLimited_last (sync_history w) (recordOf env w)) as [kept Hk].
    exists kept. rewrite Hg. exact Hk.
Qed.

(** X10.  During an outage of the synced store a completed work phase is
    written to the local store, but reading does not fall back the same
    way: while the synced store fails the history reads as empty, and once
    it works again the record shows only if the synced log is empty; a
    synced log with records in it hides the local ones. *)
Theorem outage_record_hidden (env env' : Env) (w : Service) :
  currentPhase (timerState w) = "work"%string ->
  syncFails env = true ->
  localFails env = false ->
  let w' := onTimerComplete env w in
  let r := recordOf env w in
  sync_history w' = sync_history w /\
  local_history w' = Some (pushLimited (local_history w) r) /\
  (syncFails env' = true -> getHistory env' w' = []) /\
  (syncFails env' = false ->
   history_of (sync_history w) <> [] ->
   getHistory env' w' = history_of (sync_history w)) /\
  (syncFails env' = false -> localFails env' = false ->
   history_of (sync_history w) = [] ->
   getHistory env' w' = pushLimited (local_history w) r).
Proof.
  intros Hp Hs Hl w' r.
  destruct (onTimerComplete_history env w) as (H1 & H2 & _).
  fold w' r in H1, H2. rewrite Hp, Hs in H1, H2. rewrite Hl in H2.
  change ("work" =? "work")%string with true in H1, H2.
  cbn [andb negb] in H1, H2.
  split; [exact H1 |]. split; [exact H2 |].
  split; [| split].
  - intros Hs'. unfold getHistory. rewrite Hs'. reflexivity.
  - intros Hs' Hne.
    destruct (sync_history w) as [l |] eqn:Hh; [| cbn in Hne; congruence].
    cbn [history_of] in *.
    apply getHistory_sync; [exact Hs' | exact H1 | exact Hne].
  - intros Hs' Hl' He.
    rewrite getHistory_local; [rewrite H2; reflexivity | exact Hs' | exact Hl' |].
    rewrite H1. exact He.
Qed.

(** X11.  CLEAR_HISTORY answers success whatever the stores do and never
    touches the timer.  With both stores working the history then reads
    as empty.  If the synced store rejects, nothing is cleared; if only
    the local store rejects, the synced log is gone and the records left
    in the local store become the history that is read. *)
Theorem clear_history_then_read (env env' : Env) (w : Service) :
  let w' := fst (handleMessage env CLEAR_HISTORY w) in
  snd (handleMessage env CLEAR_HISTORY w) = ResponseSuccess /\
  timerState w' = timerState w /\
  (syncFails env = false -> localFails env = false ->
     sync_history w' = None /\ local_history w' = None /\
     getHistory env' w' = []) /\
  (syncFails env = true -> w' = w) /\
  (syncFails env = false -> localFails env = true ->
     sync_history w' = None /\
     local_history w' = local_history w /\
     (syncFails env' = false -> localFails env' = false ->
      getHistory env' w' = history_of (local_history w))).
Proof.
  cbn [handleMessage fst snd]. unfold clearHistory.
  split; [reflexivity |].
  split; [destruct (syncFails env), (localFails env); reflexivity |].
  split; [| split].
  - intros Hs Hl. rewrite Hs, Hl. cbv zeta.
    split; [reflexivity | split; [reflexivity |]].
    unfold getHistory. cbn [sync_history local_history set_sync_history
                            set_local_history history_of].
    destruct (syncFails env'), (localFails env'); reflexivity.
  - intros Hs. rewrite Hs. reflexivity.
  - intros Hs Hl. rewrite Hs, Hl. cbv zeta.
    split; [reflexivity | split; [reflexivity |]].
    intros Hs' Hl'.
    exact (getHistory_local env' (set_sync_history None w) Hs' Hl' eq_refl).
Qed.

Lemma slice_last_app_slice {A : Type} (n : nat) (l l2 : list A) :
  slice_last n (slice_last n l ++ l2) = slice_last n (l ++ l2).
Proof.
  destruct (Nat.le_gt_cases (List.length l) n) as [Hle | Hgt].
  - rewrite (slice_last_short n l Hle). reflexivity.
  - unfold slice_last at 1 3.
    rewrite !length_app, slice_last_length, !skipn_app.
    unfold slice_last. rewrite skipn_skipn, length_skipn.
    f_equal; f_equal; lia.
Qed.

(** X12.  Appending one record after another keeps exactly the last 1000
    of everything appended to the log, in the order of the appends: no
    record is reordered or duplicated, and only the oldest go. *)
Theorem pushAll_keeps_last_1000
  (h : option (list PomodoroRecord)) (rs : list PomodoroRecord) :
  rs <> [] ->
  pushAll h rs = Some (slice_last 1000 (history_of h ++ rs)) /\
  List.length (history_of (pushAll h rs)) =
    Nat.min 1000 (List.length (history_of h) + List.length rs).
Proof.
  intros Hne.
  assert (Heq : pushAll h rs = Some (slice_last 1000 (history_of h ++ rs))).
  { revert h Hne. induction rs as [| r rest IH]; intros h Hne; [congruence |].
    unfold pushAll. cbn [fold_left]. fold (pushAll (Some (pushLimited h r)) rest).
    destruct rest as [| r2 rest'].
    - reflexivity.
    - rewrite IH by discriminate. cbn [history_of]. unfold pushLimited.
      rewrite slice_last_app_slice, <- app_assoc. reflexivity. }
  split; [exact Heq |].
  rewrite Heq. cbn [history_of]. rewrite slice_last_length, length_app.
  reflexivity.
Qed.

(** ** What the history holds *)

Lemma or_default_nonempty (s : string) : or_default s defaultTaskType <> ""%string.
Proof.
  unfold or_default. destruct (String.eqb_spec s "") as [-> | Hne].
  - discriminate.
  - exact Hne.
Qed.

Lemma or_default_same (s : string) :
  s <> ""%string -> or_default s defaultTaskType = s.
Proof.
  intros Hne. unfold or_default.
  apply String.eqb_neq in Hne. rewrite Hne. reflexivity.
Qed.

Lemma startTimer_memory (env : Env) (w : Service) :
  currentTaskType (startTimer env w) = currentTaskType w.
Proof.
  open_state w env; service_crush; reflexivity.
Qed.

Lemma pauseTimer_memory (env : Env) (w : Service) :
  currentTaskType (pauseTimer env w) = currentTaskType w.
Proof.
  open_state w env; service_crush; reflexivity.
Qed.

Lemma resetTimer_memory (env : Env) (w : Service) :
  currentTaskType (resetTimer env w) = currentTaskType w.
Proof.
  open_state w env; service_crush; reflexivity.
Qed.

Lemma updateTimeRemaining_memory (env : Env) (w : Service) :
  currentTaskType (updateTimeRemaining env w) = currentTaskType w.
Proof.
  rewrite updateTimeRemaining_unfold.
  destruct (isRunning (timerState w) && truthy_number (endTime (timerState w)));
    [| reflexivity].
  destruct (endTime (timerState w)) as [e |]; [| reflexivity].
  destruct (negb _); [| reflexivity].
  destruct (_ <=? 0); [| reflexivity].
  rewrite onTimerComplete_memory. reflexivity.
Qed.

(** X13.  The task type of the service is never empty: a SET_TASK_TYPE
    without a type, or with the empty one, selects the default.  So the
    record of a completed work phase carries the current task type as it
    is, and a type chosen by command is the type recorded. *)
Theorem task_type_never_empty :
  (forall w, reachable w ->
     currentTaskType w <> ""%string /\
     forall env, type (recordOf env w) = currentTaskType w) /\
  (forall env env' t w,
     t <> ""%string ->
     type (recordOf env' (fst (handleMessage env (SET_TASK_TYPE t) w))) = t) /\
  (forall env env' w,
     type (recordOf env' (fst (handleMessage env (SET_TASK_TYPE "") w)))
     = defaultTaskType).
Proof.
  assert (Hinv : forall w, reachable w -> currentTaskType w <> ""%string).
  { induction 1 as [env | env ev w Hr IH].
    - destruct (restart_forgets_session_aux env fresh_host) as [H _].
      rewrite H. discriminate.
    - destruct ev as [m | | |]; cbn [step].
      + destruct m as [| p | | | | p | | | | t | t]; cbn [handleMessage fst];
          try exact IH.
        * rewrite startTimer_memory. exact IH.
        * rewrite pauseTimer_memory. exact IH.
        * unfold skipPhase. rewrite onTimerComplete_memory. exact IH.
        * rewrite resetTimer_memory. exact IH.
        * unfold saveSettings. destruct (syncFails env); exact IH.
        * unfold clearHistory.
          destruct (syncFails env); [exact IH |].
          destruct (localFails env); exact IH.
        * apply or_default_nonempty.
      + rewrite onTimerComplete_memory. exact IH.
      + rewrite updateTimeRemaining_memory. exact IH.
      + destruct (restart_forgets_session_aux env w) as [H _].
        rewrite H. discriminate. }
  split; [| split].
  - intros w Hr. split; [apply Hinv; exact Hr |].
    intros env. unfold recordOf, buildRecord. cbn [type].
    apply or_default_same, Hinv, Hr.
  - intros env env' t w Ht. cbn [handleMessage fst].
    unfold recordOf, buildRecord. cbn [type currentTaskType set_currentTaskType].
    rewrite (or_default_same t Ht). apply or_default_same. exact Ht.
  - intros env env' w. reflexivity.
Qed.

Lemma Forall_skipn_of {A : Type} (Q : A -> Prop) (k : nat) (l : list A) :
  Forall Q l -> Forall Q (skipn k l).
Proof.
  intros H. rewrite <- (firstn_skipn k l) in H.
  apply Forall_app in H. exact (proj2 H).
Qed.

Lemma Forall_pushLimited
  (Q : PomodoroRecord -> Prop) (h : option (list PomodoroRecord))
  (r : PomodoroRecord) :
  Forall Q (history_of h) -> Q r -> Forall Q (pushLimited h r).
Proof.
  intros Hh Hr. unfold pushLimited, slice_last. apply Forall_skipn_of.
  apply Forall_app. split; [exact Hh | constructor; [exact Hr | constructor]].
Qed.

Lemma recordOf_ok (env : Env) (w : Service) :
  valid_settings (settings w) -> record_ok (recordOf env w).
Proof.
  intros (Hw & _). unfold record_ok, recordOf, buildRecord. cbn [type duration].
  split; [apply or_default_nonempty | exact Hw].
Qed.

Lemma records_ok_same (w w' : Service) :
  records_ok w ->
  sync_history w' = sync_history w ->
  local_history w' = local_history w ->
  records_ok w'.
Proof.
  unfold records_ok. intros H -> ->. exact H.
Qed.

Lemma records_ok_onTimerComplete (env : Env) (w : Service) :
  valid_settings (settings w) ->
  records_ok w -> records_ok (onTimerComplete env w).
Proof.
  intros Hv [Hs Hl].
  destruct (onTimerComplete_history env w) as (H1 & H2 & _).
  pose proof (recordOf_ok env w Hv) as Hr.
  split.
  - rewrite H1.
    destruct (_ =? _)%string, (syncFails env); cbn [andb negb history_of];
      first [exact Hs | apply Forall_pushLimited; assumption].
  - rewrite H2.
    destruct (_ =? _)%string, (syncFails env), (localFails env);
      cbn [andb negb history_of];
      first [exact Hl | apply Forall_pushLimited; assumption].
Qed.

Lemma records_ok_startService (env : Env) (host : Service) :
  well_configured host ->
  records_ok host -> records_ok (startService env host).
Proof.
  intros (Hs & Hss & _) H.
  set (loaded := loadSettings env (loadState env (construct host))).
  destruct (loaded_frame env host) as (_ & _ & _ & F4 & F5).
  fold loaded in F4, F5.
  destruct (loaded_config env host) as (Hcs & _). fold loaded in Hcs.
  assert (Hl : records_ok loaded)
    by (apply (records_ok_same host); assumption).
  assert (Hv : valid_settings (settings loaded)).
  { destruct Hcs as [-> | Hc];
      [unfold valid_settings, default_settings; cbn; lia | apply Hss; exact Hc]. }
  assert (Hr : records_ok (restoreTimer env loaded)).
  { destruct (restoreTimer_cases env loaded)
      as [Heq | [Heq | [r (_ & _ & _ & _ & _ & H4 & H5)]]].
    - rewrite Heq; exact Hl.
    - rewrite Heq; apply records_ok_onTimerComplete; assumption.
    - apply (records_ok_same loaded); assumption. }
  apply (records_ok_same (restoreTimer env loaded)); [exact Hr | |];
    reflexivity.
Qed.

Lemma records_ok_step (env : Env) (ev : Event) (w : Service) :
  well_configured w ->
  records_ok w -> records_ok (step env ev w).
Proof.
  intros Hwc H. pose proof Hwc as (Hs & _).
  destruct ev as [m | | |]; cbn [step].
  - destruct m as [| p | | | | p | | | | t | t]; cbn [handleMessage fst];
      try exact H.
    + destruct (startTimer_history env
                  (set_settings (merge_settings (settings w) p) w)) as [E1 E2].
      apply (records_ok_same w); assumption.
    + destruct (pauseTimer_history env w) as [E1 E2].
      apply (records_ok_same w); assumption.
    + unfold skipPhase. apply records_ok_onTimerComplete; assumption.
    + destruct (resetTimer_history env w) as [E1 E2].
      apply (records_ok_same w); assumption.
    + apply (records_ok_same w); [exact H | |];
        unfold saveSettings; destruct (syncFails env); reflexivity.
    + unfold clearHistory.
      destruct (syncFails env); [exact H |].
      destruct H as [H1 H2].
      destruct (localFails env); split; cbn [sync_history local_history
        set_sync_history set_local_history history_of];
        first [exact H2 | constructor].
  - apply records_ok_onTimerComplete; assumption.
  - destruct (updateTimeRemaining_cases env w)
      as [Heq | (r & w1 & _ & _ & H3 & _ & H5 & H6 & [[Heq _] | Heq])].
    + rewrite Heq; exact H.
    + rewrite Heq. apply (records_ok_same w); assumption.
    + rewrite Heq. apply records_ok_onTimerComplete.
      * rewrite H3; exact Hs.
      * apply (records_ok_same w); assumption.
  - apply records_ok_startService; assumption.
Qed.

(** X14.  In a run with validated input every record in either history
    store has a non-empty type and a positive duration, which is what the
    popup's analytics group and sum by. *)
Theorem history_records_well_formed (w : Service) :
  reachable_valid w ->
  Forall record_ok (history_of (sync_history w)) /\
  Forall record_ok (history_of (local_history w)).
Proof.
  induction 1 as [env Hn | env ev w Hn Hev Hr IH].
  - apply records_ok_startService.
    + split; [| split; [| split]].
      * unfold valid_settings; cbn; lia.
      * intros s Heq; discriminate Heq.
      * apply live_stopped; reflexivity.
      * intros t Heq; discriminate Heq.
    + split; constructor.
  - apply records_ok_step; [| exact IH].
    apply reachable_valid_well_configured; exact Hr.
Qed.

(** ** Today's figures *)

Lemma sumDurations_from (records : list PomodoroRecord) (a : Z) :
  fold_left (fun sum record => sum + duration record) records a =
  a + sumDurations records.
Proof.
  unfold sumDurations. revert a.
  induction records as [| r rest IH]; intros a; cbn [fold_left].
  - lia.
  - rewrite IH, (IH (0 + duration r)). lia.
Qed.

Lemma sumDurations_app (l1 l2 : list PomodoroRecord) :
  sumDurations (l1 ++ l2) = sumDurations l1 + sumDurations l2.
Proof.
  unfold sumDurations at 1. rewrite fold_left_app.
  fold (sumDurations l1). apply sumDurations_from.
Qed.

Lemma renderTodayStats_push
  (env : Env) (l : list PomodoroRecord) (r : PomodoroRecord) :
  renderTodayStats env (l ++ [r]) =
  if (date r =? isoDay (now env))%string
  then mkTodayStats (todayCount (renderTodayStats env l) + 1)
                    (todayMinutes (renderTodayStats env l) + duration r)
  else renderTodayStats env l.
Proof.
  unfold renderTodayStats. cbv zeta. rewrite filter_app.
  cbn [filter]. destruct (date r =? isoDay (now env))%string.
  - rewrite length_app, sumDurations_app. cbn [List.length todayCount todayMinutes].
    assert (Hone : sumDurations [r] = duration r)
      by (unfold sumDurations; cbn [fold_left]; lia).
    rewrite Hone. f_equal; lia.
  - rewrite app_nil_r. reflexivity.
Qed.

(** X15.  The popup's figures for today are computed from what
    GET_HISTORY returns, before and after.  With the synced store working
    and the synced log below its bound of 1000, completing a work phase
    adds one pomodoro and the work duration of the settings to the figures
    for the day of the completion and leaves those of any other day alone,
    provided the synced log already holds a record or the local log holds
    none.  When the synced log is empty, the figures after the completion
    are those of the new record alone: records left in the local log are
    no longer read. *)
Theorem today_stats_after_work_completion (env env' : Env) (w : Service) :
  currentPhase (timerState w) = "work"%string ->
  syncFails env = false ->
  syncFails env' = false ->
  (List.length (history_of (sync_history w)) < 1000)%nat ->
  let before := renderTodayStats env' (getHistory env' w) in
  let after := renderTodayStats env' (getHistory env' (onTimerComplete env w)) in
  ((history_of (sync_history w) <> [] \/ history_of (local_history w) = []) ->
     (isoDay (now env') = isoDay (now env) ->
        todayCount after = todayCount before + 1 /\
        todayMinutes after = todayMinutes before + workDuration (settings w)) /\
     (isoDay (now env') <> isoDay (now env) -> after = before)) /\
  (history_of (sync_history w) = [] ->
     after = renderTodayStats env' [recordOf env w]).
Proof.
  intros Hp Hs Hs' Hlen before after.
  destruct (onTimerComplete_history env w) as (H1 & _).
  rewrite Hp, Hs in H1.
  change ("work" =? "work")%string with true in H1. cbn [andb negb] in H1.
  assert (Hpush : pushLimited (sync_history w) (recordOf env w) =
                  history_of (sync_history w) ++ [recordOf env w]).
  { unfold pushLimited. apply slice_last_short.
    rewrite length_app. cbn [List.length]. lia. }
  assert (Hg : getHistory env' (onTimerComplete env w) =
               history_of (sync_history w) ++ [recordOf env w]).
  { rewrite <- Hpush.
    apply getHistory_sync; [exact Hs' | exact H1 | apply pushLimited_nonempty]. }
  split.
  - intros Hread.
    assert (Hb : getHistory env' w = history_of (sync_history w)).
    { destruct (sync_history w) as [[| r0 l] |] eqn:Hh.
      - destruct Hread as [Hne | He]; [cbn in Hne; congruence |].
        unfold getHistory. rewrite Hs', Hh, He.
        destruct (localFails env'); reflexivity.
      - apply getHistory_sync; [exact Hs' | exact Hh | discriminate].
      - destruct Hread as [Hne | He]; [cbn in Hne; congruence |].
        unfold getHistory. rewrite Hs', Hh, He.
        destruct (localFails env'); reflexivity. }
    unfold after, before. rewrite Hg, Hb, renderTodayStats_push.
    change (date (recordOf env w)) with (isoDay (now env)).
    change (duration (recordOf env w)) with (workDuration (settings w)).
    split.
    + intros Hday. rewrite Hday, String.eqb_refl. split; reflexivity.
    + intros Hday.
      destruct (String.eqb_spec (isoDay (now env)) (isoDay (now env')))
        as [Heq | Hne]; [congruence | reflexivity].
  - intros He. unfold after. rewrite Hg, He. reflexivity.
Qed.

(** ** Phases *)

(** X16.  The notification of a completion names the phase that is
    actually entered: its "next" name is the display name of the phase
    the timer is in after the completion, and its "current" name that of
    the phase completed. *)
Theorem notification_names_entered_phase (env : Env) (w : Service) :
  phaseNames (currentPhase (timerState (onTimerComplete env w))) =
    Some (getNextPhaseName w) /\
  In (NotificationCreate (phaseNames (currentPhase (timerState w)))
                         (getNextPhaseName w))
     (effects (onTimerComplete env w)).
Proof.
  split.
  - rewrite onTimerComplete_closed_form.
    unfold stateAfterCompletion, getNextPhaseName.
    destruct (_ =? "work")%string; [destruct (_ =? 0) |]; reflexivity.
  - rewrite onTimerComplete_effects. apply in_or_app. right. left. reflexivity.
Qed.

(** X17.  In every reachable state, and in its stored copy, the phase is
    one of work, short-break and long-break, the cycle counter is at least
    1, a short break goes with a cycle not divisible by 4 and a long break
    with one that is.  So the current phase always has a display name and
    the duration lookup never takes its default branch. *)
Theorem reachable_phase_known (w : Service) :
  reachable w ->
  everywhere phase_matches_cycle w /\
  phaseNames (currentPhase (timerState w)) <> None /\
  getCurrentPhaseDuration w =
    (if (currentPhase (timerState w) =? "work")%string
     then workDuration (settings w)
     else if (currentPhase (timerState w) =? "short-break")%string
          then shortBreakDuration (settings w)
          else longBreakDuration (settings w)) * 60.
Proof.
  intros Hr. pose proof (reachable_phase_matches_cycle w Hr) as Hinv.
  split; [exact Hinv |].
  destruct Hinv as [[_ Hp] _].
  unfold phaseNames, getCurrentPhaseDuration. cbv zeta.
  destruct Hp as [Hp | [[Hp _] | [Hp _]]]; rewrite Hp;
    split; first [discriminate | reflexivity].
Qed.

(** X20.  The phase function of the demo script agrees with the service:
    for every state, the phase after a completion is the one the script
    computes from the phase and the cycle before. *)
Theorem demo_getNextPhase_agrees (env : Env) (w : Service) :
  currentPhase (timerState (onTimerComplete env w)) =
    getNextPhase (currentPhase (timerState w)) (currentCycle (timerState w)) /\
  currentPhase (timerState (moveToNextPhase w)) =
    getNextPhase (currentPhase (timerState w)) (currentCycle (timerState w)).
Proof.
  split.
  - rewrite onTimerComplete_closed_form.
    unfold stateAfterCompletion, getNextPhase.
    destruct (_ =? "work")%string; [destruct (_ =? 0) |]; reflexivity.
  - unfold getNextPhase.
    destruct (String.eqb_spec (currentPhase (timerState w)) "work") as [Hp | Hp].
    + rewrite moveToNextPhase_from_work by exact Hp.
      destruct (_ =? 0); reflexivity.
    + rewrite moveToNextPhase_from_break by exact Hp. reflexivity.
Qed.

(** ** More invariants of runs with validated input *)

Lemma stateAfterCompletion_has_time_left (s : Settings) (t : TimerState) :
  valid_settings s -> has_time_left (stateAfterCompletion s t).
Proof.
  intros (Hw & Hs & Hl). unfold has_time_left, stateAfterCompletion.
  destruct (_ =? _)%string; [destruct (_ =? _) |]; cbn [timeRemaining]; lia.
Qed.

Lemma time_left_onTimerComplete (env : Env) (w : Service) :
  valid_settings (settings w) ->
  (forall t, stored_timerState w = Some t -> has_time_left t) ->
  everywhere has_time_left (onTimerComplete env w).
Proof.
  intros Hv Hst.
  assert (Hl : has_time_left (timerState (onTimerComplete env w))).
  { rewrite onTimerComplete_closed_form.
    apply stateAfterCompletion_has_time_left; exact Hv. }
  split; [exact Hl |].
  intros t. rewrite onTimerComplete_stored.
  destruct (localFails env); [apply Hst |].
  intros Heq. injection Heq as <-. exact Hl.
Qed.

Lemma time_left_startService (env : Env) (host : Service) :
  well_configured host ->
  everywhere has_time_left host ->
  everywhere has_time_left (startService env host).
Proof.
  intros (Hs & Hss & _) [Ht Hst].
  set (loaded := loadSettings env (loadState env (construct host))).
  destruct (loaded_config env host) as (Hcs & _ & Hct).
  fold loaded in Hcs, Hct.
  destruct (loaded_frame env host) as (_ & _ & Fst & _). fold loaded in Fst.
  assert (Hv : valid_settings (settings loaded)).
  { destruct Hcs as [-> | Hc];
      [unfold valid_settings, default_settings; cbn; lia | apply Hss; exact Hc]. }
  assert (Hl : everywhere has_time_left loaded).
  { split.
    - destruct Hct as [-> | Hc];
        [unfold has_time_left; cbn; lia | apply Hst; exact Hc].
    - rewrite Fst. exact Hst. }
  assert (Hr : everywhere has_time_left (restoreTimer env loaded)).
  { destruct (restoreTimer_cases env loaded)
      as [Heq | [Heq | [r (Hpos & H1 & H2 & _)]]].
    - rewrite Heq; exact Hl.
    - rewrite Heq. apply time_left_onTimerComplete; [exact Hv | apply (proj2 Hl)].
    - apply (everywhere_intro has_time_left loaded);
        [exact Hl | | left; exact H2].
      rewrite H1. exact Hpos. }
  apply (everywhere_same has_time_left (restoreTimer env loaded));
    [exact Hr | reflexivity | reflexivity].
Qed.

Lemma time_left_step (env : Env) (ev : Event) (w : Service) :
  well_configured w ->
  everywhere has_time_left w ->
  everywhere has_time_left (step env ev w).
Proof.
  intros Hwc H. pose proof Hwc as (Hs & _). pose proof H as [Ht Hst].
  destruct ev as [m | | |]; cbn [step].
  - destruct m as [| p | | | | p | | | | t | t]; cbn [handleMessage fst];
      try exact H.
    + apply (everywhere_intro has_time_left w); [exact H | |].
      * rewrite startTimer_timerState. cbv zeta.
        change (timerState (set_settings (merge_settings (settings w) p) w))
          with (timerState w).
        unfold has_time_left in Ht. pose proof Ht as Hgt.
        apply Z.leb_gt in Hgt. rewrite Hgt. exact Ht.
      * rewrite startTimer_stored. destruct (localFails env); auto.
    + apply (everywhere_intro has_time_left w); [exact H | |].
      * rewrite pauseTimer_timerState. exact Ht.
      * rewrite pauseTimer_stored. destruct (localFails env); auto.
    + unfold skipPhase. apply time_left_onTimerComplete; assumption.
    + apply (everywhere_intro has_time_left w); [exact H | |].
      * rewrite resetTimer_timerState. unfold has_time_left.
        cbn [timeRemaining]. destruct Hs as (Hw & _). lia.
      * rewrite resetTimer_stored. destruct (localFails env); auto.
    + apply (everywhere_same has_time_left w); [exact H | |];
        unfold saveSettings; destruct (syncFails env); reflexivity.
    + apply (everywhere_same has_time_left w); [exact H | |];
        unfold clearHistory; destruct (syncFails env), (localFails env);
        reflexivity.
  - apply time_left_onTimerComplete; assumption.
  - destruct (updateTimeRemaining_cases env w)
      as [Heq | (r & w1 & H1 & H2 & H3 & _ & _ & _ & [[Heq Hpos] | Heq])].
    + rewrite Heq; exact H.
    + rewrite Heq.
      apply (everywhere_intro has_time_left w); [exact H | | left; exact H2].
      rewrite H1. exact Hpos.
    + rewrite Heq. apply time_left_onTimerComplete.
      * rewrite H3. exact Hs.
      * rewrite H2. exact Hst.
  - apply time_left_startService; assumption.
Qed.

(** X18.  In a run with validated input the remaining time is positive in
    every state, running or stopped, in memory and in storage: a phase
    that runs out is completed in the same step, and the next phase starts
    from its full duration.  So a start always resumes from the remaining
    time; its branch that reloads the phase duration is never taken. *)
Theorem time_remaining_always_positive (w : Service) :
  reachable_valid w ->
  0 < timeRemaining (timerState w) /\
  (forall t, stored_timerState w = Some t -> 0 < timeRemaining t) /\
  (forall env,
     timeRemaining (timerState (startTimer env w)) =
     timeRemaining (timerState w)).
Proof.
  intros Hr.
  assert (Hinv : everywhere has_time_left w).
  { induction Hr as [env Hn | env ev w Hn Hev Hr IH].
    - apply time_left_startService.
      + split; [| split; [| split]].
        * unfold valid_settings; cbn; lia.
        * intros s Heq; discriminate Heq.
        * apply live_stopped; reflexivity.
        * intros t Heq; discriminate Heq.
      + split; [unfold has_time_left; cbn; lia |].
        intros t Heq; discriminate Heq.
    - apply time_left_step; [| exact IH].
      apply reachable_valid_well_configured; exact Hr. }
  destruct Hinv as [Ht Hst]. unfold has_time_left in Ht.
  split; [exact Ht |]. split; [exact Hst |].
  intros env. rewrite startTimer_timerState. cbv zeta.
  pose proof Ht as Hgt. apply Z.leb_gt in Hgt. rewrite Hgt. reflexivity.
Qed.

(** After a start-up a running timer has its alarm armed, whatever alarm
    the host had kept: it only takes that a running stored state has a
    deadline. *)
Lemma armed_startService (env : Env) (host : Service) :
  (forall t, stored_timerState host = Some t -> live t) ->
  armed (startService env host).
Proof.
  intros Hst.
  set (loaded := loadSettings env (loadState env (construct host))).
  destruct (loaded_config env host) as (_ & _ & Hct). fold loaded in Hct.
  assert (Hlive : live (timerState loaded)).
  { destruct Hct as [-> | Hc]; [apply live_stopped; reflexivity | apply Hst; exact Hc]. }
  unfold armed.
  change (timerState (startService env host))
    with (timerState (restoreTimer env loaded)).
  change (alarm (startService env host))
    with (alarm (restoreTimer env loaded)).
  destruct (isRunning (timerState loaded)) eqn:Hrun.
  - destruct (Hlive Hrun) as (_ & e & He & Hpos).
    rewrite (restoreTimer_running env loaded e Hrun He) by lia.
    destruct (0 <? timeLeft e (now env)).
    + intros _. eexists. reflexivity.
    + intros Hr.
      rewrite (proj1 (onTimerComplete_stopped env loaded)) in Hr.
      discriminate Hr.
  - unfold restoreTimer. rewrite Hrun. cbn [andb].
    intros Hr. rewrite Hrun in Hr. discriminate Hr.
Qed.

Lemma armed_stopped (w : Service) :
  isRunning (timerState w) = false -> armed w.
Proof.
  intros H Hr. rewrite H in Hr. discriminate Hr.
Qed.

Lemma armed_same (w w' : Service) :
  armed w ->
  isRunning (timerState w') = isRunning (timerState w) ->
  alarm w' = alarm w ->
  armed w'.
Proof.
  unfold armed. intros H -> ->. exact H.
Qed.

Lemma armed_step (env : Env) (ev : Event) (w : Service) :
  well_configured w -> armed w -> armed (step env ev w).
Proof.
  intros Hwc H. destruct ev as [m | | |]; cbn [step].
  - destruct m as [| p | | | | p | | | | t | t]; cbn [handleMessage fst];
      try exact H.
    + intros _. rewrite startTimer_alarm. eexists. reflexivity.
    + apply armed_stopped. rewrite pauseTimer_timerState. reflexivity.
    + apply armed_stopped. apply (proj1 (onTimerComplete_stopped env _)).
    + apply armed_stopped. rewrite resetTimer_timerState. reflexivity.
    + apply (armed_same w); [exact H | |];
        unfold saveSettings; destruct (syncFails env); reflexivity.
    + apply (armed_same w); [exact H | |];
        unfold clearHistory; destruct (syncFails env), (localFails env);
        reflexivity.
  - apply armed_stopped. apply (proj1 (onTimerComplete_stopped env _)).
  - rewrite updateTimeRemaining_unfold.
    destruct (isRunning (timerState w) && truthy_number (endTime (timerState w)));
      [| exact H].
    destruct (endTime (timerState w)) as [e |]; [| exact H].
    destruct (negb _); [| exact H].
    destruct (_ <=? 0).
    + apply armed_stopped. apply (proj1 (onTimerComplete_stopped env _)).
    + apply (armed_same w); [exact H | |]; reflexivity.
  - apply armed_startService. apply Hwc.
Qed.

(** X19.  In a run with validated input a running timer always has its
    alarm armed, so its completion does not depend on the poll.  This also
    holds right after a start-up on a host that has dropped the alarm
    while the worker was away: the recovery arms it again. *)
Theorem running_timer_is_armed :
  (forall w, reachable_valid w ->
     isRunning (timerState w) = true -> exists a, alarm w = Some a) /\
  (forall w env lost, reachable_valid w ->
     isRunning (timerState (startService env (set_alarm lost w))) = true ->
     exists a, alarm (startService env (set_alarm lost w)) = Some a).
Proof.
  split.
  - intros w Hr. change (armed w).
    induction Hr as [env Hn | env ev w Hn Hev Hr IH].
    + apply armed_startService. intros t Heq; discriminate Heq.
    + apply armed_step; [| exact IH].
      apply reachable_valid_well_configured; exact Hr.
  - intros w env lost Hr.
    change (armed (startService env (set_alarm lost w))).
    apply armed_startService.
    change (stored_timerState (set_alarm lost w)) with (stored_timerState w).
    destruct (reachable_valid_well_configured w Hr) as (_ & _ & _ & Hst).
    exact Hst.
Qed.

End ServiceProperties.

(** ** The theorems at work on concrete states *)

(** A deadline 90 seconds in the past at start-up: one completion, and the
    timer is stopped. *)
Lemma C1_recovery_on_startup_witness :
  stored_timerState host90 = Some saved90 /\
  isRunning saved90 = true /\
  endTime saved90 = Some (1700000000000 - 90000) /\
  timeLeft (1700000000000 - 90000) (now env0) = 0 /\
  isRunning (timerState (startService (clock := utc_host) env0 host90)) = false /\
  completed (startService (clock := utc_host) env0 host90) = S (completed host90).
Proof.
  do 4 (split; [reflexivity |]).
  destruct (C1_recovery_on_startup (clock := utc_host) env0 host90 saved90
              (1700000000000 - 90000)
              eq_refl eq_refl eq_refl eq_refl ltac:(lia))
    as (_ & _ & Hzero).
  destruct (Hzero eq_refl) as (_ & Hstop & _ & Hcount).
  split; [exact Hstop | exact Hcount].
Defined.

(** The run from the installed state with the default settings. *)
Lemma C2_phase_transition_witness :
  currentPhase (timerState installed) = "work"%string /\
  currentCycle (timerState installed) = 1 /\
  settings installed = mkSettings 25 5 15 /\
  map (fun x => (currentPhase x, currentCycle x, timeRemaining x))
      (completions (clock := utc_host)
         [env0; env0; env0; env0; env0; env0; env0] installed) =
  [("short-break"%string, 1, 300); ("work"%string, 2, 1500);
   ("short-break"%string, 2, 300); ("work"%string, 3, 1500);
   ("short-break"%string, 3, 300); ("work"%string, 4, 1500);
   ("long-break"%string, 4, 900)].
Proof.
  do 3 (split; [reflexivity |]).
  destruct (C2_phase_transition (clock := utc_host) env0 installed)
    as (_ & _ & _ & Hrun).
  exact (Hrun env0 env0 env0 env0 env0 env0 env0 eq_refl eq_refl eq_refl).
Defined.

(** C3, as stated, fails: from the running state [started] a second
    completion moves on from the short break to work, cycle 2. *)
Lemma C3_counterexample :
  ~ (forall (clock : HostClock) (env1 env2 : Env) (w : Service),
       isRunning (timerState w) = true ->
       let once := onTimerComplete env1 w in
       let twice := onTimerComplete env2 once in
       timerState twice = timerState once /\
       sync_history twice = sync_history once).
Proof.
  intros H.
  destruct (H utc_host env0 env0 started eq_refl) as [Ht _].
  vm_compute in Ht. discriminate Ht.
Qed.

(** The first work phase completed half a second early with the state
    saved, then a start-up of the worker: still one notification, and the
    short break the completion entered. *)
Lemma C3_poll_after_completion_is_noop_witness :
  localFails env_early = false /\
  completed
    (startService (clock := utc_host) env_10s
       (onTimerComplete (clock := utc_host) env_early started)) = 1%nat /\
  timerState
    (startService (clock := utc_host) env_10s
       (onTimerComplete (clock := utc_host) env_early started))
    = mkTimerState false "short-break" 1 300 None.
Proof.
  split; [reflexivity |].
  destruct (C3_poll_after_completion_is_noop (clock := utc_host)
              env_early env_10s started)
    as (_ & _ & _ & _ & Hrestart & _).
  destruct (Hrestart eq_refl) as (Hc & _ & _ & _ & Ht).
  split; [rewrite Hc; reflexivity | rewrite (Ht eq_refl); reflexivity].
Defined.

(** C4, as stated, fails: the completion of the third short break enters
    work with cycle 4. *)
Lemma C4_counterexample :
  ~ (forall (clock : HostClock) (env : Env) (w : Service),
       reachable w ->
       currentPhase (timerState w) <> "work"%string ->
       currentPhase (timerState (onTimerComplete env w)) = "work"%string ->
       Z.rem (currentCycle (timerState (onTimerComplete env w))) 4 = 0 ->
       currentPhase (timerState w) = "long-break"%string).
Proof.
  intros H.
  assert (Hr : reachable (clock := utc_host) third_break).
  { unfold third_break, installed. repeat apply reachable_step.
    apply reachable_start. }
  specialize (H utc_host env0 third_break Hr).
  assert (Hb : currentPhase (timerState third_break) <> "work"%string)
    by (vm_compute; discriminate).
  specialize (H Hb eq_refl eq_refl).
  vm_compute in H. discriminate H.
Qed.

(** Completing the third short break: work is entered with cycle 4, which
    is 0 and not 1 modulo 4, and the break was not the long one. *)
Lemma C4_long_break_precedes_cycle_1_mod_4_witness :
  reachable (clock := utc_host) third_break /\
  currentPhase (timerState third_break) <> "work"%string /\
  currentCycle (timerState (onTimerComplete (clock := utc_host) env0 third_break)) = 4 /\
  (Z.rem (currentCycle
            (timerState (onTimerComplete (clock := utc_host) env0 third_break))) 4 = 1
   <-> currentPhase (timerState third_break) = "long-break"%string).
Proof.
  assert (Hr : reachable (clock := utc_host) third_break).
  { unfold third_break, installed. repeat apply reachable_step.
    apply reachable_start. }
  assert (Hb : currentPhase (timerState third_break) <> "work"%string)
    by (vm_compute; discriminate).
  split; [exact Hr |]. split; [exact Hb |].
  destruct (C4_long_break_precedes_cycle_1_mod_4 (clock := utc_host)
              env0 third_break Hr Hb)
    as (_ & _ & Hc & Hiff & _).
  split; [rewrite Hc; reflexivity | exact Hiff].
Defined.

Lemma C5_running_iff_endTime_witness :
  reachable (clock := utc_host) started /\
  (isRunning (timerState started) = true <->
   endTime (timerState started) <> None).
Proof.
  assert (Hr : reachable (clock := utc_host) started).
  { unfold started, installed. apply reachable_step, reachable_start. }
  split; [exact Hr |].
  exact (proj1 (C5_running_iff_endTime (clock := utc_host)) started Hr).
Defined.

(** C6, as stated, fails on its last clause: a reset of the running state
    [started] keeps the start marker. *)
Lemma C6_counterexample :
  ~ (forall (clock : HostClock) (env : Env) (w : Service),
       timerState (resetTimer env w) =
         mkTimerState false "work" 1 (workDuration (settings w) * 60) None /\
       sessionStartTime (resetTimer env w) = None).
Proof.
  intros H.
  destruct (H utc_host env0 started) as [_ Hm].
  vm_compute in Hm. discriminate Hm.
Qed.

(** C6.  Reset is to discard the session-start marker; [resetTimer] does
    not.  After a start at 22:13:20 and a reset ten seconds later the
    timer state is the one asked for, but the marker of the abandoned
    session is still there, and a skip two hours later records a pomodoro
    that started at 22:13, where a discarded marker gives 23:48, the skip
    less the work duration. *)
Theorem C6_reset_keeps_stale_marker :
  let w := resetTimer env_10s started in
  timerState w = mkTimerState false "work" 1 1500 None /\
  sessionStartTime started = Some 1700000000000 /\
  sessionStartTime w = Some 1700000000000 /\
  startTime (recordOf (clock := utc_host) env_2h w) = "22:13"%string /\
  startTime (recordOf (clock := utc_host) env_2h (set_sessionStartTime None w))
    = "23:48"%string /\
  sync_history (skipPhase (clock := utc_host) env_2h w) =
    Some [mkPomodoroRecord 1700007200000 "2023-11-15" "22:13" 25 "工作"].
Proof.
  cbv zeta. repeat split; vm_compute; reflexivity.
Qed.

(** A full log: the append drops the oldest record and nothing else. *)
Lemma C7_history_bounded_witness :
  List.length (history_of (Some (repeat sample_record 1000))) = 1000%nat /\
  pushLimited (Some (repeat sample_record 1000)) sample_record =
    tl (history_of (Some (repeat sample_record 1000))) ++ [sample_record].
Proof.
  assert (Hlen : List.length (history_of (Some (repeat sample_record 1000)))
                 = 1000%nat) by apply repeat_length.
  split; [exact Hlen |].
  destruct (proj1 (proj2 (C7_history_bounded (clock := utc_host)))
              (Some (repeat sample_record 1000)) sample_record)
    as (_ & _ & _ & _ & Hfull).
  exact (Hfull Hlen).
Defined.

(** The completion of the fourth work phase, with three records in the
    log: the log afterwards is those three followed by the new one. *)
Lemma C8_record_on_work_completion_witness :
  currentPhase (timerState fourth_work) = "work"%string /\
  syncFails env_10s = false /\
  List.length (history_of (sync_history fourth_work)) = 3%nat /\
  history_of
    (sync_history (onTimerComplete (clock := utc_host) env_10s fourth_work)) =
  history_of (sync_history fourth_work)
  ++ [mkPomodoroRecord 1700000010000 "2023-11-14" "21:48" 25 "工作"].
Proof.
  split; [reflexivity |]. split; [reflexivity |].
  assert (Hlen : List.length (history_of (sync_history fourth_work)) = 3%nat)
    by (vm_compute; reflexivity).
  split; [exact Hlen |].
  destruct (C8_record_on_work_completion (clock := utc_host) env_10s fourth_work)
    as (Hwork & _).
  destruct (Hwork eq_refl) as (_ & _ & _ & _ & _ & _ & Hsync & _).
  rewrite (Hsync eq_refl) by (rewrite Hlen; lia).
  reflexivity.
Defined.

(** New durations sent while the first work phase runs: the remaining time
    stays at 1500 s, also across a second start. *)
Lemma C9_update_settings_frame_witness :
  0 < timeRemaining (timerState started) /\
  timeRemaining
    (timerState
       (startTimer env0
          (fst (handleMessage (clock := utc_host) env0
                  (UPDATE_SETTINGS (mkSettingsPatch (Some 10) (Some 2) (Some 4)))
                  started)))) = 1500.
Proof.
  split; [reflexivity |].
  destruct (C9_update_settings_frame (clock := utc_host) env0
              (mkSettingsPatch (Some 10) (Some 2) (Some 4)) started)
    as (_ & _ & _ & _ & _ & _ & _ & _ & _ & _ & Hnext).
  destruct (Hnext env0) as (_ & _ & Hstart & _).
  rewrite (Hstart eq_refl). reflexivity.
Defined.

(** A second start ten seconds into the first work phase: the deadline
    moves from 22:38:20 to 22:38:30. *)
Lemma C10_start_while_running_witness :
  isRunning (timerState started) = true /\
  0 < timeRemaining (timerState started) /\
  endTime (timerState started) = Some 1700001500000 /\
  endTime
    (timerState
       (fst (handleMessage (clock := utc_host) (mkEnv 1700000010000 false false)
               (START_TIMER (mkSettingsPatch None None None)) started))) =
  Some 1700001510000.
Proof.
  do 3 (split; [reflexivity |]).
  destruct (C10_start_while_running (clock := utc_host)
              (mkEnv 1700000010000 false false)
              (mkSettingsPatch None None None) started eq_refl)
    as (_ & _ & _ & _ & _ & Hstart).
  destruct (Hstart eq_refl) as (_ & He & _).
  rewrite He. reflexivity.
Defined.

(** ** The further properties at work on concrete states *)

#[local] Existing Instance utc_host.

Lemma started_reachable_valid : reachable_valid (clock := utc_host) started.
Proof.
  unfold started, installed.
  apply reachable_valid_step.
  - reflexivity.
  - repeat split; intros v Hv; discriminate Hv.
  - apply reachable_valid_start. reflexivity.
Defined.

Lemma start_sets_marker_in_work_witness :
  currentPhase (timerState installed) = "work"%string /\
  0 < workDuration (settings started) /\
  sessionStartTime (startTimer env_10s installed) = Some 1700000010000 /\
  sessionStartTime (startTimer env_10s (resetTimer env0 started))
    = Some 1700000010000.
Proof.
  split; [reflexivity |]. split; [reflexivity |].
  destruct (start_sets_marker_in_work env_10s env0 installed)
    as (Hwork & _).
  destruct (start_sets_marker_in_work env_10s env0 started)
    as (_ & _ & Hreset).
  split; [exact (Hwork eq_refl) | exact (proj2 (Hreset eq_refl))].
Defined.

Lemma start_then_pause_keeps_time_witness :
  0 < timeRemaining (timerState installed) /\
  timerState (pauseTimer env_10s (startTimer env0 installed))
    = timerState installed.
Proof.
  split; [reflexivity |].
  destruct (start_then_pause_keeps_time env0 env_10s
              installed eq_refl) as (_ & _ & H).
  exact (H eq_refl eq_refl).
Defined.

Lemma poll_after_start_witness :
  0 < timeRemaining (timerState installed) /\
  timeRemaining
    (timerState
       (updateTimeRemaining (clock := utc_host) env_10s (startTimer env0 installed)))
    = 1490.
Proof.
  split; [reflexivity |].
  destruct (poll_after_start (clock := utc_host) env0 env_10s installed)
    as (H & _).
  - reflexivity.
  - cbn; lia.
  - cbn; lia.
  - rewrite H. reflexivity.
Defined.

Lemma poll_completion_leaves_alarm_witness :
  isRunning (timerState started) = true /\
  endTime (timerState started) = Some 1700001500000 /\
  alarm (updateTimeRemaining (clock := utc_host) env_early started) = Some 1500 /\
  timerState
    (step (clock := utc_host) env_early AlarmFired
       (updateTimeRemaining env_early started))
    = mkTimerState false "work" 2 1500 None.
Proof.
  split; [reflexivity |]. split; [reflexivity |].
  destruct (poll_completion_leaves_alarm (clock := utc_host) env_early env_early
              started 1700001500000 eq_refl eq_refl)
    as (_ & Ha & _ & Ht & _).
  - lia.
  - cbn; lia.
  - cbn; lia.
  - split; [rewrite Ha; reflexivity | rewrite Ht; reflexivity].
Defined.

Lemma restart_after_start_witness :
  0 < timeRemaining (timerState installed) /\
  timerState (startService (clock := utc_host) env_10s (startTimer env0 installed))
    = mkTimerState true "work" 1 1490 (Some 1700001500000) /\
  alarm (startService (clock := utc_host) env_10s (startTimer env0 installed))
    = Some 1490.
Proof.
  split; [reflexivity |].
  destruct (restart_after_start (clock := utc_host) env0 env_10s installed)
    as (Hin & _).
  - reflexivity.
  - cbn; lia.
  - cbn; lia.
  - reflexivity.
  - reflexivity.
  - destruct Hin as (Ht & Ha & _); [cbn; lia |].
    split; [rewrite Ht; reflexivity | rewrite Ha; reflexivity].
Defined.

Lemma settings_across_restart_witness :
  settings
    (startService (clock := utc_host) env_10s
       (fst (handleMessage env0
               (UPDATE_SETTINGS (mkSettingsPatch (Some 50) None None)) installed)))
    = mkSettings 50 5 15 /\
  settings
    (startService (clock := utc_host) env_10s
       (fst (handleMessage env0
               (START_TIMER (mkSettingsPatch (Some 50) None None)) installed)))
    = mkSettings 25 5 15.
Proof.
  destruct (settings_across_restart (clock := utc_host) env0 env_10s
              (mkSettingsPatch (Some 50) None None) installed eq_refl)
    as (Hupd & _ & _ & Hstart).
  split; [rewrite (Hupd eq_refl); reflexivity | rewrite Hstart; reflexivity].
Defined.

Lemma history_shows_new_record_witness :
  currentPhase (timerState started) = "work"%string /\
  snd (handleMessage env_10s GET_HISTORY (onTimerComplete env_early started))
    = ResponseHistory
        [mkPomodoroRecord 1700001499500 "2023-11-14" "22:13" 25 "工作"].
Proof.
  split; [reflexivity |].
  destruct (history_shows_new_record env_early env_10s
              started eq_refl eq_refl eq_refl) as (H & _).
  rewrite H. reflexivity.
Defined.

Lemma outage_record_hidden_witness :
  currentPhase (timerState started) = "work"%string /\
  syncFails env_outage = true /\ localFails env_outage = false /\
  history_of
    (local_history (onTimerComplete (clock := utc_host) env_outage started))
    = [recordOf (clock := utc_host) env_outage started] /\
  getHistory env_outage (onTimerComplete (clock := utc_host) env_outage started)
    = [].
Proof.
  do 3 (split; [reflexivity |]).
  destruct (outage_record_hidden (clock := utc_host) env_outage env_outage
              started eq_refl eq_refl eq_refl) as (_ & Hl & Hout & _).
  split; [rewrite Hl; reflexivity | exact (Hout eq_refl)].
Defined.

Lemma clear_history_then_read_witness :
  getHistory env_10s
    (fst (handleMessage (clock := utc_host) env0 CLEAR_HISTORY third_break)) = [].
Proof.
  destruct (clear_history_then_read (clock := utc_host) env0 env_10s third_break)
    as (_ & _ & Hok & _).
  exact (proj2 (proj2 (Hok eq_refl eq_refl))).
Defined.

Lemma pushAll_keeps_last_1000_witness :
  [sample_record; sample_record] <> [] /\
  List.length
    (history_of
       (pushAll (Some (repeat sample_record 999)) [sample_record; sample_record]))
    = 1000%nat.
Proof.
  assert (Hne : [sample_record; sample_record] <> []) by discriminate.
  split; [exact Hne |].
  destruct (pushAll_keeps_last_1000 (Some (repeat sample_record 999))
              [sample_record; sample_record] Hne) as (_ & Hlen).
  rewrite Hlen. cbn [history_of List.length]. rewrite repeat_length.
  reflexivity.
Defined.

Lemma task_type_never_empty_witness :
  reachable (clock := utc_host) started /\
  currentTaskType started <> ""%string /\
  type (recordOf (clock := utc_host) env_10s
          (fst (handleMessage env0 (SET_TASK_TYPE "study") started)))
    = "study"%string.
Proof.
  assert (Hr : reachable (clock := utc_host) started).
  { unfold started, installed. apply reachable_step, reachable_start. }
  split; [exact Hr |].
  destruct (task_type_never_empty (clock := utc_host)) as (Hinv & Hset & _).
  split; [exact (proj1 (Hinv started Hr)) |].
  apply Hset. discriminate.
Defined.

Lemma third_break_reachable_valid : reachable_valid (clock := utc_host) third_break.
Proof.
  unfold third_break, installed.
  repeat (apply reachable_valid_step; [reflexivity | exact I |]).
  apply reachable_valid_start. reflexivity.
Defined.

Lemma history_records_well_formed_witness :
  reachable_valid (clock := utc_host) third_break /\
  List.length (history_of (sync_history third_break)) = 3%nat /\
  Forall record_ok (history_of (sync_history third_break)).
Proof.
  split; [exact third_break_reachable_valid |].
  split; [vm_compute; reflexivity |].
  exact (proj1 (history_records_well_formed (clock := utc_host) third_break
                  third_break_reachable_valid)).
Defined.

Lemma today_stats_after_work_completion_witness :
  currentPhase (timerState fourth_work) = "work"%string /\
  (List.length (history_of (sync_history fourth_work)) < 1000)%nat /\
  history_of (sync_history fourth_work) <> [] /\
  isoDay (now env_10s) = isoDay (now env_10s) /\
  todayCount (renderTodayStats env_10s (getHistory env_10s fourth_work)) = 3 /\
  todayMinutes (renderTodayStats env_10s (getHistory env_10s fourth_work)) = 75 /\
  todayCount
    (renderTodayStats env_10s
       (getHistory env_10s (onTimerComplete env_10s fourth_work))) = 4 /\
  todayMinutes
    (renderTodayStats env_10s
       (getHistory env_10s (onTimerComplete env_10s fourth_work))) = 100.
Proof.
  split; [reflexivity |].
  assert (Hl3 : List.length (history_of (sync_history fourth_work)) = 3%nat)
    by (vm_compute; reflexivity).
  assert (Hlen : (List.length (history_of (sync_history fourth_work)) < 1000)%nat)
    by (rewrite Hl3; lia).
  assert (Hne : history_of (sync_history fourth_work) <> []).
  { intros He. rewrite He in Hl3. discriminate Hl3. }
  split; [exact Hlen |]. split; [exact Hne |]. split; [reflexivity |].
  assert (Hc : todayCount (renderTodayStats env_10s (getHistory env_10s fourth_work)) = 3)
    by (vm_compute; reflexivity).
  assert (Hm : todayMinutes (renderTodayStats env_10s (getHistory env_10s fourth_work)) = 75)
    by (vm_compute; reflexivity).
  split; [exact Hc |]. split; [exact Hm |].
  destruct (today_stats_after_work_completion
              env_10s env_10s fourth_work eq_refl eq_refl eq_refl Hlen)
    as (Hshown & _).
  destruct (Hshown (or_introl Hne)) as (Hsame & _).
  destruct (Hsame eq_refl) as (H1 & H2).
  split; [rewrite H1, Hc; reflexivity | rewrite H2, Hm; reflexivity].
Defined.

Lemma reachable_phase_known_witness :
  reachable (clock := utc_host) third_break /\
  phaseNames (currentPhase (timerState third_break)) <> None /\
  getCurrentPhaseDuration third_break = 300.
Proof.
  assert (Hr : reachable (clock := utc_host) third_break).
  { unfold third_break, installed. repeat apply reachable_step.
    apply reachable_start. }
  split; [exact Hr |].
  destruct (reachable_phase_known (clock := utc_host) third_break Hr)
    as (_ & Hn & Hd).
  split; [exact Hn | rewrite Hd; reflexivity].
Defined.

Lemma time_remaining_always_positive_witness :
  reachable_valid (clock := utc_host) started /\
  0 < timeRemaining (timerState started) /\
  timeRemaining (timerState (startTimer env_10s started))
    = 1500.
Proof.
  split; [exact started_reachable_valid |].
  destruct (time_remaining_always_positive (clock := utc_host) started
              started_reachable_valid) as (Hpos & _ & Hstart).
  split; [exact Hpos | rewrite Hstart; reflexivity].
Defined.

Lemma running_timer_is_armed_witness :
  reachable_valid (clock := utc_host) started /\
  isRunning (timerState started) = true /\
  (exists a, alarm started = Some a) /\
  (exists a,
     alarm (startService (clock := utc_host) env_10s (set_alarm None started))
     = Some a).
Proof.
  split; [exact started_reachable_valid |]. split; [reflexivity |].
  destruct (running_timer_is_armed (clock := utc_host)) as (Hrun & Hrestart).
  split.
  - exact (Hrun started started_reachable_valid eq_refl).
  - exact (Hrestart started env_10s None started_reachable_valid eq_refl).
Defined.
